(** * mochi-shell GPU layer: device context, effect passes, render graph

    A shallow embedding of [core/gpu/gpucontext.c] and [core/gpu/passes.c].
    The C code is a thin layer over EGL and OpenGL ES, so the embedding is
    effectful: every call into the native API is recorded, with its result,
    in a trace held by the [World]; the answers of the native API come from
    a [Driver] record.  Pointers that may be NULL are [option]s, fixed-width
    integers are [Z] with their wrap-around written out, and C undefined
    behaviour (an out-of-bounds array read, an unrepresentable float to
    integer conversion) is the [Undefined] outcome. *)

From Stdlib Require Import ZArith String List Bool Lia.
From Stdlib Require Import SpecFloat.
Import ListNotations.
Open Scope string_scope.
Open Scope list_scope.
Open Scope Z_scope.

(** ** Machine integers and floats *)

Definition wrap32 (z : Z) : Z := z mod 2 ^ 32.

(** Conversion of a 32-bit pattern to [int32_t], as in [(EGLint)ctx->width]. *)
Definition to_int32 (z : Z) : Z :=
  let u := wrap32 z in if u <? 2 ^ 31 then u else u - 2 ^ 32.

(** C [float]: IEEE-754 single precision, as a specification float. *)
Definition float := spec_float.

(** The C conversion [(int32_t)f]: truncation toward zero; the behaviour is
    undefined when the truncated value is not representable (or [f] is not
    finite), which is [None] here. *)
Definition float_to_int32 (f : float) : option Z :=
  match f with
  | S754_zero _ => Some 0
  | S754_finite s m e =>
      let mag := if 0 <=? e then Z.pos m * 2 ^ e else Z.pos m / 2 ^ (- e) in
      let t := if s then - mag else mag in
      if (- 2 ^ 31 <=? t) && (t <? 2 ^ 31) then Some t else None
  | S754_infinity _ | S754_nan => None
  end.

(** [strncpy(dst, src, n)] into a zero-terminated field of [n + 1] bytes. *)
Definition strncpy (n : nat) (src : string) : string := substring 0 n src.

(** ** Build configuration

    Both translation units select their native headers by preprocessor
    tests on the target platform. *)

Inductive Platform := Linux | FreeBSD | Win32 | Apple | OtherPlatform.

(** [USE_EGL] of gpucontext.c. *)
Definition USE_EGL (p : Platform) : bool :=
  match p with Linux | FreeBSD => true | _ => false end.

(** [HAS_OPENGL] of passes.c. *)
Definition HAS_OPENGL (p : Platform) : bool :=
  match p with OtherPlatform => false | _ => true end.

(** ** gpucontext.h *)

Inductive GpuBackendType :=
| GPU_BACKEND_NONE | GPU_BACKEND_VULKAN | GPU_BACKEND_OPENGL | GPU_BACKEND_OPENGLES.

Definition backend_code (b : GpuBackendType) : Z :=
  match b with
  | GPU_BACKEND_NONE => 0 | GPU_BACKEND_VULKAN => 1
  | GPU_BACKEND_OPENGL => 2 | GPU_BACKEND_OPENGLES => 3
  end.

Definition backend_eqb (a b : GpuBackendType) : bool :=
  backend_code a =? backend_code b.

Definition GpuShader := Z.
Definition GpuBuffer := Z.
Definition GpuTexture := Z.

(** [struct GpuContext]. *)
Record GpuContext := mkGpuContext {
  backend_type : GpuBackendType;
  width : Z;
  height : Z;
  egl_display : Z;
  egl_context : Z;
  egl_surface : Z;
  egl_config : Z;
  current_program : Z;
  device_name : string;
  vendor_name : string;
  driver_version : string
}.

Definition set_backend_type (v : GpuBackendType) (c : GpuContext) :=
  mkGpuContext v (width c) (height c) (egl_display c) (egl_context c)
    (egl_surface c) (egl_config c) (current_program c) (device_name c)
    (vendor_name c) (driver_version c).
Definition set_size (w h : Z) (c : GpuContext) :=
  mkGpuContext (backend_type c) w h (egl_display c) (egl_context c)
    (egl_surface c) (egl_config c) (current_program c) (device_name c)
    (vendor_name c) (driver_version c).
Definition set_egl_display (v : Z) (c : GpuContext) :=
  mkGpuContext (backend_type c) (width c) (height c) v (egl_context c)
    (egl_surface c) (egl_config c) (current_program c) (device_name c)
    (vendor_name c) (driver_version c).
Definition set_egl_context (v : Z) (c : GpuContext) :=
  mkGpuContext (backend_type c) (width c) (height c) (egl_display c) v
    (egl_surface c) (egl_config c) (current_program c) (device_name c)
    (vendor_name c) (driver_version c).
Definition set_egl_surface (v : Z) (c : GpuContext) :=
  mkGpuContext (backend_type c) (width c) (height c) (egl_display c)
    (egl_context c) v (egl_config c) (current_program c) (device_name c)
    (vendor_name c) (driver_version c).
Definition set_egl_config (v : Z) (c : GpuContext) :=
  mkGpuContext (backend_type c) (width c) (height c) (egl_display c)
    (egl_context c) (egl_surface c) v (current_program c) (device_name c)
    (vendor_name c) (driver_version c).
Definition set_current_program (v : Z) (c : GpuContext) :=
  mkGpuContext (backend_type c) (width c) (height c) (egl_display c)
    (egl_context c) (egl_surface c) (egl_config c) v (device_name c)
    (vendor_name c) (driver_version c).
Definition set_device_name (v : string) (c : GpuContext) :=
  mkGpuContext (backend_type c) (width c) (height c) (egl_display c)
    (egl_context c) (egl_surface c) (egl_config c) (current_program c) v
    (vendor_name c) (driver_version c).
Definition set_vendor_name (v : string) (c : GpuContext) :=
  mkGpuContext (backend_type c) (width c) (height c) (egl_display c)
    (egl_context c) (egl_surface c) (egl_config c) (current_program c)
    (device_name c) v (driver_version c).
Definition set_driver_version (v : string) (c : GpuContext) :=
  mkGpuContext (backend_type c) (width c) (height c) (egl_display c)
    (egl_context c) (egl_surface c) (egl_config c) (current_program c)
    (device_name c) (vendor_name c) v.

(** The block returned by [calloc(1, sizeof(GpuContext))]. *)
Definition zeroed_context : GpuContext :=
  mkGpuContext GPU_BACKEND_NONE 0 0 0 0 0 0 0 "" "" "".

(** ** The native API (EGL, OpenGL ES, libc)

    Symbolic constants of the native headers that the code passes on. *)

Inductive GLenum :=
| GL_VENDOR | GL_RENDERER | GL_VERSION
| GL_VERTEX_SHADER | GL_FRAGMENT_SHADER
| GL_ARRAY_BUFFER | GL_STATIC_DRAW
| GL_TEXTURE_2D | GL_RGBA | GL_UNSIGNED_BYTE | GL_UNSIGNED_INT
| GL_TEXTURE_MIN_FILTER | GL_TEXTURE_MAG_FILTER | GL_LINEAR
| GL_BLEND
| GL_ZERO | GL_ONE | GL_SRC_ALPHA | GL_ONE_MINUS_SRC_ALPHA
| GL_DST_COLOR | GL_ONE_MINUS_SRC_COLOR.

Definition GL_COLOR_BUFFER_BIT : Z := 16384.
Definition GL_DEPTH_BUFFER_BIT : Z := 256.
Definition GL_TEXTURE0 : Z := 33984.
Definition EGL_NO_DISPLAY : Z := 0.
Definition EGL_NO_SURFACE : Z := 0.
Definition EGL_NO_CONTEXT : Z := 0.

(** One constructor per native function the two files call; a call that
    returns something the code looks at carries that result last. *)
Inductive Call :=
| calloc (ok : bool)
| free
| printf (fmt : string) (args : list string)
| eglGetDisplay (ret : Z)
| eglInitialize (dpy : Z) (ret : bool)
| eglChooseConfig (dpy : Z) (ret : bool)
| eglCreatePbufferSurface (dpy cfg w h : Z) (ret : Z)
| eglCreateContext (dpy cfg : Z) (client_version : Z) (ret : Z)
| eglMakeCurrent (dpy draw read ctx : Z) (ret : bool)
| eglDestroyContext (dpy ctx : Z)
| eglDestroySurface (dpy surf : Z)
| eglTerminate (dpy : Z)
| eglSwapBuffers (dpy surf : Z)
| glGetString (name : GLenum) (ret : option string)
| glClearColor (r g b a : float)
| glClear (mask : Z)
| glViewport (x y w h : Z)
| glCreateShader (stage : GLenum) (ret : Z)
| glShaderSource (shader : Z) (src : string)
| glCompileShader (shader : Z)
| glGetShaderiv_COMPILE_STATUS (shader : Z) (ret : bool)
| glGetShaderInfoLog (shader : Z) (ret : string)
| glDeleteShader (shader : Z)
| glCreateProgram (ret : Z)
| glAttachShader (program shader : Z)
| glLinkProgram (program : Z)
| glGetProgramiv_LINK_STATUS (program : Z) (ret : bool)
| glGetProgramInfoLog (program : Z) (ret : string)
| glDeleteProgram (program : Z)
| glUseProgram (program : Z)
| glGetUniformLocation (program : Z) (name : string) (ret : Z)
| glUniform1f (loc : Z) (x : float)
| glUniform2f (loc : Z) (x y : float)
| glUniform3f (loc : Z) (x y z : float)
| glUniform4f (loc : Z) (x y z w : float)
| glUniformMatrix4fv (loc : Z) (count : Z) (transpose : bool) (m : list float)
| glGenBuffers (ret : Z)
| glBindBuffer (target : GLenum) (buffer : Z)
| glBufferData (target : GLenum) (size : Z) (data : list float) (usage : GLenum)
| glDeleteBuffers (buffer : Z)
| glGenTextures (ret : Z)
| glBindTexture (target : GLenum) (texture : Z)
| glTexImage2D (w h : Z) (data : option (list Z))
| glTexParameteri (target pname param : GLenum)
| glActiveTexture (unit : Z)
| glDeleteTextures (texture : Z)
| glDrawArrays (mode first count : Z)
| glDrawElements (mode count : Z) (indices : list Z)
| glEnable (cap : GLenum)
| glBlendFunc (sfactor dfactor : GLenum).

(** What the platform answers.  The code under study never inspects more
    of the native state than these results. *)
Record Driver := mkDriver {
  drv_calloc : bool;
  drv_eglGetDisplay : Z;
  drv_eglInitialize : bool;
  drv_eglChooseConfig : bool;
  drv_egl_config : Z;
  drv_eglCreatePbufferSurface : Z;
  drv_eglCreateContext : Z;
  drv_eglMakeCurrent : bool;
  drv_glGetString : GLenum -> option string;
  drv_compile_status : GLenum -> string -> bool;
  drv_link_status : string -> string -> bool;
  drv_info_log : string;
  drv_glGetUniformLocation : Z -> string -> Z
}.

(** The world outside the process: the calls made so far, most recent
    first, and the next unused GL object name (names are issued in
    increasing order and are never reused). *)
Record World := mkWorld {
  trace : list Call;
  next_name : Z
}.

(** ** Effects *)

Inductive Outcome (A : Type) :=
| Ok (a : A) (w : World)
| Undefined (w : World).
Arguments Ok {A} a w.
Arguments Undefined {A} w.

Definition M (A : Type) : Type := World -> Outcome A.

Definition ret {A} (a : A) : M A := fun w => Ok a w.

Definition bind {A B} (m : M A) (k : A -> M B) : M B :=
  fun w => match m w with
           | Ok a w' => k a w'
           | Undefined w' => Undefined w'
           end.

Definition undefined {A} : M A := fun w => Undefined w.

Definition call (c : Call) : M unit :=
  fun w => Ok tt (mkWorld (c :: trace w) (next_name w)).

Definition fresh_name : M Z :=
  fun w => Ok (next_name w) (mkWorld (trace w) (next_name w + 1)).

Declare Scope gpu_scope.
Delimit Scope gpu_scope with gpu.
Notation "x <- m ;; k" := (bind m (fun x => k))
  (at level 100, m at next level, right associativity) : gpu_scope.
Notation "m ;; k" := (bind m (fun _ => k))
  (at level 100, right associativity) : gpu_scope.
Notation "' p <- m ;; k" := (bind m (fun p => k))
  (at level 100, p pattern, m at next level, right associativity) : gpu_scope.
Open Scope gpu_scope.

(** Native calls whose result the code reads. *)
Definition gl_create_shader (stage : GLenum) : M Z :=
  n <- fresh_name ;; call (glCreateShader stage n) ;; ret n.
Definition gl_create_program : M Z :=
  n <- fresh_name ;; call (glCreateProgram n) ;; ret n.
Definition gl_gen_buffer : M Z :=
  n <- fresh_name ;; call (glGenBuffers n) ;; ret n.
Definition gl_gen_texture : M Z :=
  n <- fresh_name ;; call (glGenTextures n) ;; ret n.

(** ** gpucontext.c: backend negotiation *)

Definition Probe : Type := GpuContext -> M (bool * GpuContext).

(** [gpu_context_create], with the three static helpers it calls taken as
    arguments. *)
Definition gpu_context_create_with (calloc_ok : bool)
    (try_vulkan try_opengl try_opengles : Probe)
    (width height : Z) : M (option GpuContext) :=
  call (calloc calloc_ok) ;;
  if negb calloc_ok then ret None else
  let ctx := set_backend_type GPU_BACKEND_NONE
               (set_size width height zeroed_context) in
  '(ok, ctx) <- try_vulkan ctx ;;
  if ok then
    call (printf "GPU: Initialized Vulkan backend\n" []) ;; ret (Some ctx)
  else
  '(ok, ctx) <- try_opengl ctx ;;
  if ok then
    call (printf "GPU: Initialized OpenGL backend\n" []) ;; ret (Some ctx)
  else
  '(ok, ctx) <- try_opengles ctx ;;
  if ok then
    call (printf "GPU: Initialized OpenGL ES backend\n" []) ;; ret (Some ctx)
  else
  call (printf "GPU: No hardware backend available, using CPU fallback\n" []) ;;
  call free ;;
  ret None.

Section Gpu.

Variable plat : Platform.
Variable drv : Driver.

Definition try_init_opengles : Probe := fun ctx =>
  if USE_EGL plat then
    let dpy := drv_eglGetDisplay drv in
    call (eglGetDisplay dpy) ;;
    let ctx := set_egl_display dpy ctx in
    if dpy =? EGL_NO_DISPLAY then ret (false, ctx) else
    call (eglInitialize dpy (drv_eglInitialize drv)) ;;
    if negb (drv_eglInitialize drv) then ret (false, ctx) else
    call (eglChooseConfig dpy (drv_eglChooseConfig drv)) ;;
    if negb (drv_eglChooseConfig drv) then
      call (eglTerminate dpy) ;; ret (false, ctx)
    else
    let ctx := set_egl_config (drv_egl_config drv) ctx in
    let surf := drv_eglCreatePbufferSurface drv in
    call (eglCreatePbufferSurface dpy (egl_config ctx)
            (to_int32 (width ctx)) (to_int32 (height ctx)) surf) ;;
    let ctx := set_egl_surface surf ctx in
    if surf =? EGL_NO_SURFACE then
      call (eglTerminate dpy) ;; ret (false, ctx)
    else
    let ectx := drv_eglCreateContext drv in
    call (eglCreateContext dpy (egl_config ctx) 3 ectx) ;;
    let ctx := set_egl_context ectx ctx in
    if ectx =? EGL_NO_CONTEXT then
      call (eglDestroySurface dpy surf) ;;
      call (eglTerminate dpy) ;;
      ret (false, ctx)
    else
    call (eglMakeCurrent dpy surf surf ectx (drv_eglMakeCurrent drv)) ;;
    if negb (drv_eglMakeCurrent drv) then
      call (eglDestroyContext dpy ectx) ;;
      call (eglDestroySurface dpy surf) ;;
      call (eglTerminate dpy) ;;
      ret (false, ctx)
    else
    let vendor := drv_glGetString drv GL_VENDOR in
    call (glGetString GL_VENDOR vendor) ;;
    let renderer := drv_glGetString drv GL_RENDERER in
    call (glGetString GL_RENDERER renderer) ;;
    let version := drv_glGetString drv GL_VERSION in
    call (glGetString GL_VERSION version) ;;
    let ctx := match vendor with
               | Some s => set_vendor_name (strncpy 127 s) ctx
               | None => ctx
               end in
    let ctx := match renderer with
               | Some s => set_device_name (strncpy 255 s) ctx
               | None => ctx
               end in
    let ctx := match version with
               | Some s => set_driver_version (strncpy 63 s) ctx
               | None => ctx
               end in
    ret (true, set_backend_type GPU_BACKEND_OPENGLES ctx)
  else ret (false, ctx).

Definition try_init_opengl : Probe := fun ctx =>
  match plat with
  | FreeBSD | Apple =>
      let ctx := set_vendor_name (strncpy 127 "System") ctx in
      let ctx := set_device_name (strncpy 255 "OpenGL (not initialized)") ctx in
      let ctx := set_driver_version (strncpy 63 "N/A") ctx in
      ret (false, set_backend_type GPU_BACKEND_OPENGL ctx)
  | _ => ret (false, ctx)
  end.

Definition try_init_vulkan : Probe := fun ctx => ret (false, ctx).

Definition gpu_context_create (width height : Z) : M (option GpuContext) :=
  gpu_context_create_with (drv_calloc drv)
    try_init_vulkan try_init_opengl try_init_opengles width height.

(** The guard [#ifdef USE_EGL if (ctx->backend_type == GPU_BACKEND_OPENGLES)]
    around the body of every operation below. *)
Definition opengles_active (c : GpuContext) : bool :=
  USE_EGL plat && backend_eqb (backend_type c) GPU_BACKEND_OPENGLES.

Definition gpu_context_destroy (ctx : option GpuContext) : M unit :=
  match ctx with
  | None => ret tt
  | Some c =>
      (if opengles_active c then
         (* the result of this eglMakeCurrent is not looked at *)
         call (eglMakeCurrent (egl_display c) EGL_NO_SURFACE EGL_NO_SURFACE
                 EGL_NO_CONTEXT true) ;;
         call (eglDestroyContext (egl_display c) (egl_context c)) ;;
         call (eglDestroySurface (egl_display c) (egl_surface c)) ;;
         call (eglTerminate (egl_display c))
       else ret tt) ;;
      call free
  end.

Definition gpu_context_is_valid (ctx : option GpuContext) : bool :=
  match ctx with
  | None => false
  | Some c => negb (backend_eqb (backend_type c) GPU_BACKEND_NONE)
  end.

Definition gpu_context_get_backend (ctx : option GpuContext) : GpuBackendType :=
  match ctx with
  | Some c => backend_type c
  | None => GPU_BACKEND_NONE
  end.

(** ** gpucontext.c: per-call operations

    An operation that writes to [*ctx] returns the updated structure. *)

Definition gpu_context_clear (ctx : option GpuContext) (r g b a : float)
  : M unit :=
  match ctx with
  | None => ret tt
  | Some c =>
      if opengles_active c then
        call (glClearColor r g b a) ;;
        call (glClear (Z.lor GL_COLOR_BUFFER_BIT GL_DEPTH_BUFFER_BIT))
      else ret tt
  end.

Definition gpu_context_viewport (ctx : option GpuContext) (x y w h : Z)
  : M (option GpuContext) :=
  match ctx with
  | None => ret None
  | Some c =>
      if opengles_active c then
        call (glViewport x y (to_int32 w) (to_int32 h)) ;;
        ret (Some (set_size w h c))
      else ret (Some c)
  end.

Definition gpu_context_present (ctx : option GpuContext) : M unit :=
  match ctx with
  | None => ret tt
  | Some c =>
      if opengles_active c then
        call (eglSwapBuffers (egl_display c) (egl_surface c))
      else ret tt
  end.

Definition gpu_context_create_shader (ctx : option GpuContext)
    (vertex_src fragment_src : option string) : M GpuShader :=
  match ctx, vertex_src, fragment_src with
  | Some c, Some vsrc, Some fsrc =>
      if opengles_active c then
        vertex_shader <- gl_create_shader GL_VERTEX_SHADER ;;
        call (glShaderSource vertex_shader vsrc) ;;
        call (glCompileShader vertex_shader) ;;
        let success := drv_compile_status drv GL_VERTEX_SHADER vsrc in
        call (glGetShaderiv_COMPILE_STATUS vertex_shader success) ;;
        if negb success then
          call (glGetShaderInfoLog vertex_shader (drv_info_log drv)) ;;
          call (printf "Vertex shader compilation failed: %s\n"
                  [drv_info_log drv]) ;;
          call (glDeleteShader vertex_shader) ;;
          ret 0
        else
        fragment_shader <- gl_create_shader GL_FRAGMENT_SHADER ;;
        call (glShaderSource fragment_shader fsrc) ;;
        call (glCompileShader fragment_shader) ;;
        let success := drv_compile_status drv GL_FRAGMENT_SHADER fsrc in
        call (glGetShaderiv_COMPILE_STATUS fragment_shader success) ;;
        if negb success then
          call (glGetShaderInfoLog fragment_shader (drv_info_log drv)) ;;
          call (printf "Fragment shader compilation failed: %s\n"
                  [drv_info_log drv]) ;;
          call (glDeleteShader vertex_shader) ;;
          call (glDeleteShader fragment_shader) ;;
          ret 0
        else
        program <- gl_create_program ;;
        call (glAttachShader program vertex_shader) ;;
        call (glAttachShader program fragment_shader) ;;
        call (glLinkProgram program) ;;
        let success := drv_link_status drv vsrc fsrc in
        call (glGetProgramiv_LINK_STATUS program success) ;;
        if negb success then
          call (glGetProgramInfoLog program (drv_info_log drv)) ;;
          call (printf "Shader program linking failed: %s\n"
                  [drv_info_log drv]) ;;
          call (glDeleteShader vertex_shader) ;;
          call (glDeleteShader fragment_shader) ;;
          call (glDeleteProgram program) ;;
          ret 0
        else
        call (glDeleteShader vertex_shader) ;;
        call (glDeleteShader fragment_shader) ;;
        ret program
      else ret 0
  | _, _, _ => ret 0
  end.

Definition gpu_context_use_shader (ctx : option GpuContext) (shader : GpuShader)
  : M (option GpuContext) :=
  match ctx with
  | None => ret None
  | Some c =>
      if opengles_active c then
        call (glUseProgram shader) ;;
        ret (Some (set_current_program shader c))
      else ret (Some c)
  end.

Definition gpu_context_delete_shader (ctx : option GpuContext)
    (shader : GpuShader) : M unit :=
  match ctx with
  | None => ret tt
  | Some c =>
      if opengles_active c then call (glDeleteProgram shader) else ret tt
  end.

Definition gpu_context_set_uniform_float (ctx : option GpuContext)
    (name : option string) (value : float) : M unit :=
  match ctx, name with
  | Some c, Some n =>
      if opengles_active c then
        let location :=
          drv_glGetUniformLocation drv (current_program c) n in
        call (glGetUniformLocation (current_program c) n location) ;;
        if 0 <=? location then call (glUniform1f location value) else ret tt
      else ret tt
  | _, _ => ret tt
  end.

Definition gpu_context_set_uniform_vec2 (ctx : option GpuContext)
    (name : option string) (x y : float) : M unit :=
  match ctx, name with
  | Some c, Some n =>
      if opengles_active c then
        let location :=
          drv_glGetUniformLocation drv (current_program c) n in
        call (glGetUniformLocation (current_program c) n location) ;;
        if 0 <=? location then call (glUniform2f location x y) else ret tt
      else ret tt
  | _, _ => ret tt
  end.

Definition gpu_context_set_uniform_vec3 (ctx : option GpuContext)
    (name : option string) (x y z : float) : M unit :=
  match ctx, name with
  | Some c, Some n =>
      if opengles_active c then
        let location :=
          drv_glGetUniformLocation drv (current_program c) n in
        call (glGetUniformLocation (current_program c) n location) ;;
        if 0 <=? location then call (glUniform3f location x y z) else ret tt
      else ret tt
  | _, _ => ret tt
  end.

Definition gpu_context_set_uniform_vec4 (ctx : option GpuContext)
    (name : option string) (x y z w : float) : M unit :=
  match ctx, name with
  | Some c, Some n =>
      if opengles_active c then
        let location :=
          drv_glGetUniformLocation drv (current_program c) n in
        call (glGetUniformLocation (current_program c) n location) ;;
        if 0 <=? location then call (glUniform4f location x y z w) else ret tt
      else ret tt
  | _, _ => ret tt
  end.

Definition gpu_context_set_uniform_mat4 (ctx : option GpuContext)
    (name : option string) (matrix : option (list float)) : M unit :=
  match ctx, name, matrix with
  | Some c, Some n, Some m =>
      if opengles_active c then
        let location :=
          drv_glGetUniformLocation drv (current_program c) n in
        call (glGetUniformLocation (current_program c) n location) ;;
        if 0 <=? location then call (glUniformMatrix4fv location 1 false m) else ret tt
      else ret tt
  | _, _, _ => ret tt
  end.

Definition gpu_context_create_buffer (ctx : option GpuContext)
    (data : option (list float)) (size : Z) : M GpuBuffer :=
  match ctx, data with
  | Some c, Some d =>
      if opengles_active c then
        buffer <- gl_gen_buffer ;;
        call (glBindBuffer GL_ARRAY_BUFFER buffer) ;;
        call (glBufferData GL_ARRAY_BUFFER size d GL_STATIC_DRAW) ;;
        ret buffer
      else ret 0
  | _, _ => ret 0
  end.

Definition gpu_context_bind_buffer (ctx : option GpuContext)
    (buffer : GpuBuffer) : M unit :=
  match ctx with
  | None => ret tt
  | Some c =>
      if opengles_active c then call (glBindBuffer GL_ARRAY_BUFFER buffer)
      else ret tt
  end.

Definition gpu_context_delete_buffer (ctx : option GpuContext)
    (buffer : GpuBuffer) : M unit :=
  match ctx with
  | None => ret tt
  | Some c =>
      if opengles_active c then call (glDeleteBuffers buffer) else ret tt
  end.

Definition gpu_context_create_texture (ctx : option GpuContext)
    (width height : Z) (data : option (list Z)) : M GpuTexture :=
  match ctx with
  | None => ret 0
  | Some c =>
      if opengles_active c then
        texture <- gl_gen_texture ;;
        call (glBindTexture GL_TEXTURE_2D texture) ;;
        call (glTexImage2D (to_int32 width) (to_int32 height) data) ;;
        call (glTexParameteri GL_TEXTURE_2D GL_TEXTURE_MIN_FILTER GL_LINEAR) ;;
        call (glTexParameteri GL_TEXTURE_2D GL_TEXTURE_MAG_FILTER GL_LINEAR) ;;
        ret texture
      else ret 0
  end.

Definition gpu_context_bind_texture (ctx : option GpuContext)
    (texture : GpuTexture) (slot : Z) : M unit :=
  match ctx with
  | None => ret tt
  | Some c =>
      if opengles_active c then
        call (glActiveTexture (wrap32 (GL_TEXTURE0 + slot))) ;;
        call (glBindTexture GL_TEXTURE_2D texture)
      else ret tt
  end.

Definition gpu_context_delete_texture (ctx : option GpuContext)
    (texture : GpuTexture) : M unit :=
  match ctx with
  | None => ret tt
  | Some c =>
      if opengles_active c then call (glDeleteTextures texture) else ret tt
  end.

Definition gpu_context_draw_arrays (ctx : option GpuContext)
    (mode first count : Z) : M unit :=
  match ctx with
  | None => ret tt
  | Some c =>
      if opengles_active c then call (glDrawArrays mode first count)
      else ret tt
  end.

Definition gpu_context_draw_elements (ctx : option GpuContext)
    (mode count : Z) (indices : option (list Z)) : M unit :=
  match ctx, indices with
  | Some c, Some ix =>
      if opengles_active c then call (glDrawElements mode count ix)
      else ret tt
  | _, _ => ret tt
  end.

(** ** passes.c *)

(** [a[i]] for an array of which [a] are the elements: reading past the end
    is undefined behaviour. *)
Definition array_get {A} (a : list A) (i : Z) : M A :=
  match nth_error a (Z.to_nat i) with
  | Some v => ret v
  | None => undefined
  end.

(** [(int32_t)f] *)
Definition cast_int32 (f : float) : M Z :=
  match float_to_int32 f with
  | Some z => ret z
  | None => undefined
  end.

Definition gpu_blur_pass (ctx : option GpuContext) (x y w h : Z)
    (radius : float) (samples : Z) : M unit :=
  match ctx with
  | None => ret tt
  | Some _ => ret tt   (* TODO: Implement optimized separable blur *)
  end.

Definition gpu_shadow_pass (ctx : option GpuContext) (x y w h : Z)
    (offset_x offset_y : float) (color : option (list float))
    (blur opacity : float) : M unit :=
  match ctx, color with
  | Some _, Some _ => ret tt   (* TODO: Implement shadow rendering *)
  | _, _ => ret tt
  end.

Definition gpu_composite_pass (ctx : option GpuContext) (blend_mode : Z)
  : M unit :=
  match ctx with
  | None => ret tt
  | Some _ =>
      if HAS_OPENGL plat then
        call (glEnable GL_BLEND) ;;
        if blend_mode =? 0 then
          call (glBlendFunc GL_SRC_ALPHA GL_ONE_MINUS_SRC_ALPHA)
        else if blend_mode =? 1 then
          call (glBlendFunc GL_DST_COLOR GL_ZERO)
        else if blend_mode =? 2 then
          call (glBlendFunc GL_ONE GL_ONE_MINUS_SRC_COLOR)
        else if blend_mode =? 3 then
          call (glBlendFunc GL_SRC_ALPHA GL_ONE)
        else ret tt
      else ret tt
  end.

Definition gpu_color_adjust_pass (ctx : option GpuContext) (x y w h : Z)
    (brightness contrast saturation : float) : M unit :=
  match ctx with
  | None => ret tt
  | Some _ => ret tt   (* TODO: Implement color adjustment shader *)
  end.

Definition gpu_upload_uniforms (ctx : option GpuContext)
    (name : option string) (type : Z) (values : option (list float))
  : M unit :=
  match ctx, name, values with
  | Some _, Some _, Some vs =>
      if type =? 0 then
        v0 <- array_get vs 0 ;;
        gpu_context_set_uniform_float ctx name v0
      else if type =? 1 then
        v0 <- array_get vs 0 ;; v1 <- array_get vs 1 ;;
        gpu_context_set_uniform_vec2 ctx name v0 v1
      else if type =? 2 then
        v0 <- array_get vs 0 ;; v1 <- array_get vs 1 ;;
        v2 <- array_get vs 2 ;;
        gpu_context_set_uniform_vec3 ctx name v0 v1 v2
      else if type =? 3 then
        v0 <- array_get vs 0 ;; v1 <- array_get vs 1 ;;
        v2 <- array_get vs 2 ;; v3 <- array_get vs 3 ;;
        gpu_context_set_uniform_vec4 ctx name v0 v1 v2 v3
      else ret tt
  | _, _, _ => ret tt
  end.

(** The [switch (node_type)] of [gpu_execute_render_graph]: runs one node
    with the cursor at [param_offset] and returns the cursor after it.
    [param_offset] is a [uint32_t], so is every index computed from it. *)
Definition render_graph_node (ctx : option GpuContext) (params : list float)
    (node_type : Z) (param_offset : Z) : M Z :=
  let p k := array_get params (wrap32 (param_offset + k)) in
  if node_type =? 0 then        (* Clear *)
    r <- p 0 ;; g <- p 1 ;; b <- p 2 ;; a <- p 3 ;;
    gpu_context_clear ctx r g b a ;;
    ret (wrap32 (param_offset + 4))
  else if node_type =? 1 then   (* DrawRect *)
    (* TODO: Implement rect drawing *)
    ret (wrap32 (param_offset + 8))
  else if node_type =? 2 then   (* BlurPass *)
    radius <- p 0 ;; s <- p 1 ;; samples <- cast_int32 s ;;
    gpu_blur_pass ctx 0 0 0 0 radius samples ;;
    ret (wrap32 (param_offset + 2))
  else if node_type =? 3 then   (* ShadowPass *)
    c0 <- p 2 ;; c1 <- p 3 ;; c2 <- p 4 ;; c3 <- p 5 ;;
    let color := [c0; c1; c2; c3] in
    ox <- p 0 ;; oy <- p 1 ;; blur <- p 6 ;; opacity <- p 7 ;;
    gpu_shadow_pass ctx 0 0 0 0 ox oy (Some color) blur opacity ;;
    ret (wrap32 (param_offset + 8))
  else if node_type =? 4 then   (* CompositePass *)
    m <- p 0 ;; blend_mode <- cast_int32 m ;;
    gpu_composite_pass ctx blend_mode ;;
    ret (wrap32 (param_offset + 1))
  else if node_type =? 5 then   (* ColorAdjust *)
    br <- p 0 ;; co <- p 1 ;; sa <- p 2 ;;
    gpu_color_adjust_pass ctx 0 0 0 0 br co sa ;;
    ret (wrap32 (param_offset + 3))
  else ret param_offset.

(** The [for (i = 0; i < node_count; i++)] loop, with [remaining] the
    number of iterations left, [node_count - i]. *)
Fixpoint render_graph_loop (ctx : option GpuContext) (nodes : list Z)
    (params : list float) (remaining : nat) (i param_offset : Z) : M unit :=
  match remaining with
  | O => ret tt
  | S k =>
      node_type <- array_get nodes i ;;
      param_offset' <- render_graph_node ctx params node_type param_offset ;;
      render_graph_loop ctx nodes params k (i + 1) param_offset'
  end.

Definition gpu_execute_render_graph (ctx : option GpuContext)
    (nodes : option (list Z)) (node_count : Z) (params : option (list float))
  : M unit :=
  match ctx, nodes, params with
  | Some _, Some ns, Some ps =>
      render_graph_loop ctx ns ps (Z.to_nat node_count) 0 0
  | _, _, _ => ret tt
  end.

(** The contexts a caller can hold.  [struct GpuContext] is opaque outside
    gpucontext.c, so a context is made by [gpu_context_create] and changed
    only by the two operations that write to it. *)
Inductive Issued : GpuContext -> Prop :=
| issued_create width height w c w' :
    gpu_context_create width height w = Ok (Some c) w' -> Issued c
| issued_viewport c x y width height w c' w' :
    Issued c ->
    gpu_context_viewport (Some c) x y width height w = Ok (Some c') w' ->
    Issued c'
| issued_use_shader c shader w c' w' :
    Issued c ->
    gpu_context_use_shader (Some c) shader w = Ok (Some c') w' ->
    Issued c'.

End Gpu.

(** ** Observations on a trace

    What a test double of the native API would count. *)

Inductive ResourceKind :=
| HeapBlock | DisplayConnection | PbufferSurface | RenderingContext.

(** The change a call makes to the number of held resources of a kind. *)
Definition acquires (k : ResourceKind) (c : Call) : Z :=
  match k, c with
  | HeapBlock, calloc true => 1
  | HeapBlock, free => -1
  | DisplayConnection, eglInitialize _ true => 1
  | DisplayConnection, eglTerminate _ => -1
  | PbufferSurface, eglCreatePbufferSurface _ _ _ _ r =>
      if r =? EGL_NO_SURFACE then 0 else 1
  | PbufferSurface, eglDestroySurface _ _ => -1
  | RenderingContext, eglCreateContext _ _ _ r =>
      if r =? EGL_NO_CONTEXT then 0 else 1
  | RenderingContext, eglDestroyContext _ _ => -1
  | _, _ => 0
  end.

Fixpoint held (k : ResourceKind) (t : list Call) : Z :=
  match t with
  | [] => 0
  | c :: older => acquires k c + held k older
  end.

Fixpoint remove_one (n : Z) (l : list Z) : list Z :=
  match l with
  | [] => []
  | x :: r => if x =? n then r else x :: remove_one n r
  end.

(** Shader stage objects created and not yet deleted. *)
Fixpoint stage_objects (t : list Call) : list Z :=
  match t with
  | [] => []
  | glCreateShader _ n :: older => n :: stage_objects older
  | glDeleteShader n :: older => remove_one n (stage_objects older)
  | _ :: older => stage_objects older
  end.

(** Program objects created and not yet deleted. *)
Fixpoint program_objects (t : list Call) : list Z :=
  match t with
  | [] => []
  | glCreateProgram n :: older => n :: program_objects older
  | glDeleteProgram n :: older => remove_one n (program_objects older)
  | _ :: older => program_objects older
  end.

(** The blend function in force: the arguments of the latest [glBlendFunc]. *)
Fixpoint blend_func (t : list Call) : option (GLenum * GLenum) :=
  match t with
  | [] => None
  | glBlendFunc s d :: _ => Some (s, d)
  | _ :: older => blend_func older
  end.

(** The uniform lookups made, as (program, name), latest first. *)
Fixpoint uniform_lookups (t : list Call) : list (Z * string) :=
  match t with
  | [] => []
  | glGetUniformLocation p n _ :: older => (p, n) :: uniform_lookups older
  | _ :: older => uniform_lookups older
  end.

Definition is_uniform_upload (c : Call) : bool :=
  match c with
  | glUniform1f _ _ | glUniform2f _ _ _ | glUniform3f _ _ _ _
  | glUniform4f _ _ _ _ _ | glUniformMatrix4fv _ _ _ _ => true
  | _ => false
  end.

(** The uniform uploads made, latest first. *)
Definition uniform_uploads (t : list Call) : list Call :=
  filter is_uniform_upload t.

(** ** The data model of the specification *)

(** Fixed arity of each node type (Clear=4, DrawRect=8, BlurPass=2,
    ShadowPass=8, CompositePass=1, ColorAdjust=3); a tag outside the six
    types has none. *)
Definition node_arity (node_type : Z) : Z :=
  if node_type =? 0 then 4
  else if node_type =? 1 then 8
  else if node_type =? 2 then 2
  else if node_type =? 3 then 8
  else if node_type =? 4 then 1
  else if node_type =? 5 then 3
  else 0.

Definition recognized (node_type : Z) : bool :=
  (0 <=? node_type) && (node_type <=? 5).

Fixpoint total_arity (nodes : list Z) : Z :=
  match nodes with
  | [] => 0
  | n :: rest => node_arity n + total_arity rest
  end.

(** The blend-function mapping as the specification words it: Normal is
    source-over with straight alpha, Multiply is destination colour times
    zero, Screen is additive inverse-multiply, Overlay is additive scaled by
    source alpha. *)
Definition spec_blend_function (blend_mode : Z) : option (GLenum * GLenum) :=
  match blend_mode with
  | 0 => Some (GL_SRC_ALPHA, GL_ONE_MINUS_SRC_ALPHA)
  | 1 => Some (GL_DST_COLOR, GL_ZERO)
  | 2 => Some (GL_ONE, GL_ONE_MINUS_SRC_COLOR)
  | 3 => Some (GL_SRC_ALPHA, GL_ONE)
  | _ => None
  end.

(** A value for one of the five uniform setters. *)
Inductive UniformValue :=
| UFloat (value : float)
| UVec2 (x y : float)
| UVec3 (x y z : float)
| UVec4 (x y z w : float)
| UMat4 (matrix : list float).

Definition set_uniform (plat : Platform) (drv : Driver)
    (ctx : option GpuContext) (name : string) (v : UniformValue) : M unit :=
  match v with
  | UFloat value => gpu_context_set_uniform_float plat drv ctx (Some name) value
  | UVec2 x y => gpu_context_set_uniform_vec2 plat drv ctx (Some name) x y
  | UVec3 x y z => gpu_context_set_uniform_vec3 plat drv ctx (Some name) x y z
  | UVec4 x y z w =>
      gpu_context_set_uniform_vec4 plat drv ctx (Some name) x y z w
  | UMat4 m => gpu_context_set_uniform_mat4 plat drv ctx (Some name) (Some m)
  end.

(** The native upload that carries [v] to [location]. *)
Definition upload_of (location : Z) (v : UniformValue) : Call :=
  match v with
  | UFloat value => glUniform1f location value
  | UVec2 x y => glUniform2f location x y
  | UVec3 x y z => glUniform3f location x y z
  | UVec4 x y z w => glUniform4f location x y z w
  | UMat4 m => glUniformMatrix4fv location 1 false m
  end.

(** The per-call operations of gpucontext.h, as one type, so that a
    statement can range over all of them. *)
Inductive Operation :=
| OpClear (r g b a : float)
| OpViewport (x y w h : Z)
| OpPresent
| OpCreateShader (vertex_src fragment_src : option string)
| OpUseShader (shader : GpuShader)
| OpDeleteShader (shader : GpuShader)
| OpCreateBuffer (data : option (list float)) (size : Z)
| OpBindBuffer (buffer : GpuBuffer)
| OpDeleteBuffer (buffer : GpuBuffer)
| OpCreateTexture (w h : Z) (data : option (list Z))
| OpBindTexture (texture : GpuTexture) (slot : Z)
| OpDeleteTexture (texture : GpuTexture)
| OpSetUniformFloat (name : option string) (value : float)
| OpSetUniformVec2 (name : option string) (x y : float)
| OpSetUniformVec3 (name : option string) (x y z : float)
| OpSetUniformVec4 (name : option string) (x y z w : float)
| OpSetUniformMat4 (name : option string) (matrix : option (list float))
| OpDrawArrays (mode first count : Z)
| OpDrawElements (mode count : Z) (indices : option (list Z)).

(** Runs an operation; the result is the context structure afterwards and
    the handle returned (0 for an operation that returns nothing). *)
Definition perform (plat : Platform) (drv : Driver) (op : Operation)
    (ctx : option GpuContext) : M (option GpuContext * Z) :=
  let done (m : M unit) := (m ;; ret (ctx, 0)) in
  let made (m : M Z) := (h <- m ;; ret (ctx, h)) in
  let wrote (m : M (option GpuContext)) := (c <- m ;; ret (c, 0)) in
  match op with
  | OpClear r g b a => done (gpu_context_clear plat ctx r g b a)
  | OpViewport x y w h => wrote (gpu_context_viewport plat ctx x y w h)
  | OpPresent => done (gpu_context_present plat ctx)
  | OpCreateShader v f => made (gpu_context_create_shader plat drv ctx v f)
  | OpUseShader s => wrote (gpu_context_use_shader plat ctx s)
  | OpDeleteShader s => done (gpu_context_delete_shader plat ctx s)
  | OpCreateBuffer d n => made (gpu_context_create_buffer plat ctx d n)
  | OpBindBuffer b => done (gpu_context_bind_buffer plat ctx b)
  | OpDeleteBuffer b => done (gpu_context_delete_buffer plat ctx b)
  | OpCreateTexture w h d => made (gpu_context_create_texture plat ctx w h d)
  | OpBindTexture t s => done (gpu_context_bind_texture plat ctx t s)
  | OpDeleteTexture t => done (gpu_context_delete_texture plat ctx t)
  | OpSetUniformFloat n v =>
      done (gpu_context_set_uniform_float plat drv ctx n v)
  | OpSetUniformVec2 n x y =>
      done (gpu_context_set_uniform_vec2 plat drv ctx n x y)
  | OpSetUniformVec3 n x y z =>
      done (gpu_context_set_uniform_vec3 plat drv ctx n x y z)
  | OpSetUniformVec4 n x y z w =>
      done (gpu_context_set_uniform_vec4 plat drv ctx n x y z w)
  | OpSetUniformMat4 n m =>
      done (gpu_context_set_uniform_mat4 plat drv ctx n m)
  | OpDrawArrays m f c => done (gpu_context_draw_arrays plat ctx m f c)
  | OpDrawElements m c ix => done (gpu_context_draw_elements plat ctx m c ix)
  end.

(** The render-graph loop seen as a walk over the list of nodes; it
    returns the final cursor. *)
Fixpoint render_graph_run (plat : Platform) (ctx : option GpuContext)
    (params : list float) (nodes : list Z) (param_offset : Z) : M Z :=
  match nodes with
  | [] => ret param_offset
  | node_type :: rest =>
      param_offset' <-
        render_graph_node plat ctx params node_type param_offset ;;
      render_graph_run plat ctx params rest param_offset'
  end.

(** [m2] does whatever [m1] does, whenever [m1] returns normally. *)
Definition covers {A} (m1 m2 : M A) : Prop :=
  forall w a w', m1 w = Ok a w' -> m2 w = Ok a w'.

(** ** A test double, for concrete runs *)

Definition f_zero : float := S754_zero false.
Definition f_one : float := S754_finite false 1 0.
Definition f_four : float := S754_finite false 1 2.
Definition f_eight : float := S754_finite false 1 3.
Definition f_seven : float := S754_finite false 7 0.

(** Every native call succeeds; a shader source compiles unless it is
    ["bad"], and the only uniform any program has is ["u_color"], at
    location 4. *)
Definition working_driver : Driver :=
  mkDriver true 1 true true 7 2 3 true
    (fun _ => Some "mesa")
    (fun _ src => negb (String.eqb src "bad"))
    (fun _ _ => true)
    "error"
    (fun _ name => if String.eqb name "u_color" then 4 else -1).

(** As [working_driver], but no program links. *)
Definition no_link_driver : Driver :=
  mkDriver true 1 true true 7 2 3 true
    (fun _ => Some "mesa")
    (fun _ src => negb (String.eqb src "bad"))
    (fun _ _ => false)
    "error"
    (fun _ _ => -1).

(** As [working_driver], but the rendering context cannot be made
    current. *)
Definition no_current_driver : Driver :=
  mkDriver true 1 true true 7 2 3 false
    (fun _ => Some "mesa")
    (fun _ _ => true)
    (fun _ _ => true)
    "error"
    (fun _ _ => -1).

Definition boot : World := mkWorld [] 1.

(** The context [gpu_context_create(800, 600)] returns on Linux with
    [working_driver]. *)
Definition linux_context : GpuContext :=
  mkGpuContext GPU_BACKEND_OPENGLES 800 600 1 3 2 7 0 "mesa" "mesa" "mesa".



(** ** gpucontext.c: device information *)

(** [GpuDeviceInfo] of gpucontext.h. *)
Record GpuDeviceInfo := mkGpuDeviceInfo {
  info_backend_type : GpuBackendType;
  info_device_name : string;
  info_vendor_name : string;
  info_driver_version : string;
  max_texture_size : Z;
  supports_compute : bool
}.

(** [memset(info, 0, sizeof(GpuDeviceInfo))] *)
Definition zeroed_info : GpuDeviceInfo :=
  mkGpuDeviceInfo GPU_BACKEND_NONE "" "" "" 0 false.

(** [gpu_context_get_device_info]; the result is [*info] afterwards.  The
    native query [glGetIntegerv(GL_MAX_TEXTURE_SIZE, &max_texture_size)] is
    taken as an argument: it yields the [GLint] stored. *)
Definition gpu_context_get_device_info (plat : Platform)
    (glGetIntegerv_MAX_TEXTURE_SIZE : M Z)
    (ctx : option GpuContext) (info : option GpuDeviceInfo)
  : M (option GpuDeviceInfo) :=
  match ctx, info with
  | Some c, Some _ =>
      let filled :=
        mkGpuDeviceInfo (backend_type c)
          (strncpy 255 (device_name c))
          (strncpy 127 (vendor_name c))
          (strncpy 63 (driver_version c))
          0 false in
      if opengles_active plat c then
        max_size <- glGetIntegerv_MAX_TEXTURE_SIZE ;;
        ret (Some (mkGpuDeviceInfo (info_backend_type filled)
                     (info_device_name filled) (info_vendor_name filled)
                     (info_driver_version filled)
                     (wrap32 max_size) false))
      else ret (Some filled)
  | _, _ => ret info
  end.

(** ** Further observations on a trace *)

Definition world_of {A} (o : Outcome A) : World :=
  match o with
  | Ok _ w => w
  | Undefined w => w
  end.

(** Buffer objects generated and not yet deleted. *)
Fixpoint buffer_objects (t : list Call) : list Z :=
  match t with
  | [] => []
  | glGenBuffers n :: older => n :: buffer_objects older
  | glDeleteBuffers n :: older => remove_one n (buffer_objects older)
  | _ :: older => buffer_objects older
  end.

(** The buffer named by the latest [glBindBuffer]; 0 when there is none. *)
Fixpoint array_buffer_binding (t : list Call) : Z :=
  match t with
  | [] => 0
  | glBindBuffer _ b :: _ => b
  | _ :: older => array_buffer_binding older
  end.

(** The size and data last given by [glBufferData] while [b] was the
    buffer bound. *)
Fixpoint buffer_store (b : Z) (t : list Call) : option (Z * list float) :=
  match t with
  | [] => None
  | glBufferData _ size data _ :: older =>
      if array_buffer_binding older =? b then Some (size, data)
      else buffer_store b older
  | _ :: older => buffer_store b older
  end.

(** Texture objects generated and not yet deleted. *)
Fixpoint texture_objects (t : list Call) : list Z :=
  match t with
  | [] => []
  | glGenTextures n :: older => n :: texture_objects older
  | glDeleteTextures n :: older => remove_one n (texture_objects older)
  | _ :: older => texture_objects older
  end.

(** The texture unit selected by the latest [glActiveTexture];
    [GL_TEXTURE0] when there is none. *)
Fixpoint active_texture_unit (t : list Call) : Z :=
  match t with
  | [] => GL_TEXTURE0
  | glActiveTexture u :: _ => u
  | _ :: older => active_texture_unit older
  end.

(** The texture named by the latest [glBindTexture] made while [unit] was
    the active unit; 0 when there is none. *)
Fixpoint texture_binding (unit : Z) (t : list Call) : Z :=
  match t with
  | [] => 0
  | glBindTexture _ x :: older =>
      if active_texture_unit older =? unit then x
      else texture_binding unit older
  | _ :: older => texture_binding unit older
  end.

(** The image last given by [glTexImage2D] while [x] was bound to the
    active unit. *)
Fixpoint texture_image (x : Z) (t : list Call)
  : option (Z * Z * option (list Z)) :=
  match t with
  | [] => None
  | glTexImage2D w h data :: older =>
      if texture_binding (active_texture_unit older) older =? x
      then Some (w, h, data)
      else texture_image x older
  | _ :: older => texture_image x older
  end.

(** The floats an upload call carries. *)
Definition upload_values (c : Call) : list float :=
  match c with
  | glUniform1f _ x => [x]
  | glUniform2f _ x y => [x; y]
  | glUniform3f _ x y z => [x; y; z]
  | glUniform4f _ x y z w => [x; y; z; w]
  | glUniformMatrix4fv _ _ _ m => m
  | _ => []
  end.

Definition is_clear_or_blend (c : Call) : bool :=
  match c with
  | glClearColor _ _ _ _ | glClear _ | glEnable GL_BLEND | glBlendFunc _ _ =>
      true
  | _ => false
  end.

(** [m], however it ends, adds to the trace only clear and blend calls
    and issues no object name. *)
Definition only_clears_and_blends {A} (m : M A) : Prop :=
  forall w, exists added,
    trace (world_of (m w)) = added ++ trace w
    /\ forallb is_clear_or_blend added = true
    /\ next_name (world_of (m w)) = next_name w.

(** The conditions under which a backend comes up: an EGL build, memory
    for the context, and every EGL step of [try_init_opengles]. *)
Definition backend_available (plat : Platform) (drv : Driver) : bool :=
  USE_EGL plat && drv_calloc drv
  && negb (drv_eglGetDisplay drv =? EGL_NO_DISPLAY)
  && drv_eglInitialize drv && drv_eglChooseConfig drv
  && negb (drv_eglCreatePbufferSurface drv =? EGL_NO_SURFACE)
  && negb (drv_eglCreateContext drv =? EGL_NO_CONTEXT)
  && drv_eglMakeCurrent drv.

(** An identity string of a context: what [glGetString] gave, cut to the
    field; when it gave NULL, what was in the field before, which the
    failed desktop OpenGL probe has written on FreeBSD. *)
Definition identity_string (plat : Platform) (drv : Driver) (name : GLenum)
    (n : nat) (placeholder : string) : string :=
  match drv_glGetString drv name with
  | Some s => strncpy n s
  | None => match plat with
            | FreeBSD => strncpy n placeholder
            | _ => ""
            end
  end.

(** A float that [(int32_t)] converts. *)
Definition convertible (f : float) : Prop := float_to_int32 f <> None.

(** As [working_driver], but [glGetString] answers NULL. *)
Definition silent_driver : Driver :=
  mkDriver true 1 true true 7 2 3 true
    (fun _ => None)
    (fun _ _ => true)
    (fun _ _ => true)
    "error"
    (fun _ _ => 0).

(** ** The calls a graph is to make

    A reference for the interpreter: the native calls of a graph on a
    valid context, computed from the nodes and the parameters alone. *)

(** The calls of a composite pass for [mode], latest first. *)
Definition blend_calls (mode : Z) : list Call :=
  match spec_blend_function mode with
  | Some (s, d) => [glBlendFunc s d; glEnable GL_BLEND]
  | None => [glEnable GL_BLEND]
  end.

(** The calls, latest first, of one node that finds [front] at the
    cursor; [None] when its block is not all there, or when the parameter
    it converts to [int32_t] does not convert.  A Clear node clears, a
    CompositePass node blends, the other nodes call nothing; a DrawRect
    node, and a tag that is no node type, need no block. *)
Definition node_calls (node_type : Z) (front : list float)
  : option (list Call) :=
  if node_type =? 0 then
    match front with
    | r :: g :: b :: a :: _ =>
        Some [glClear (Z.lor GL_COLOR_BUFFER_BIT GL_DEPTH_BUFFER_BIT);
              glClearColor r g b a]
    | _ => None
    end
  else if node_type =? 1 then Some []
  else if node_type =? 2 then
    match front with
    | _ :: s :: _ =>
        match float_to_int32 s with Some _ => Some [] | None => None end
    | _ => None
    end
  else if node_type =? 3 then
    match front with
    | _ :: _ :: _ :: _ :: _ :: _ :: _ :: _ :: _ => Some []
    | _ => None
    end
  else if node_type =? 4 then
    match front with
    | m :: _ =>
        match float_to_int32 m with
        | Some mode => Some (blend_calls mode)
        | None => None
        end
    | [] => None
    end
  else if node_type =? 5 then
    match front with
    | _ :: _ :: _ :: _ => Some []
    | _ => None
    end
  else Some [].

(** The calls of a graph, latest first, each node taking its block from
    the front of what the nodes before it left, and whether every node
    found its block. *)
Fixpoint graph_calls (nodes : list Z) (params : list float)
  : list Call * bool :=
  match nodes with
  | [] => ([], true)
  | node_type :: rest =>
      match node_calls node_type params with
      | None => ([], false)
      | Some calls =>
          let later :=
            graph_calls rest (skipn (Z.to_nat (node_arity node_type)) params)
          in (fst later ++ calls, snd later)
      end
  end.

(** ** Shader objects on a trace *)

(** The stage a shader object was created for. *)
Fixpoint shader_kind (s : Z) (t : list Call) : option GLenum :=
  match t with
  | [] => None
  | glCreateShader stage n :: older =>
      if n =? s then Some stage else shader_kind s older
  | _ :: older => shader_kind s older
  end.

(** The source last given to a shader object. *)
Fixpoint shader_text (s : Z) (t : list Call) : option string :=
  match t with
  | [] => None
  | glShaderSource n src :: older =>
      if n =? s then Some src else shader_text s older
  | _ :: older => shader_text s older
  end.

(** Whether a shader object has been compiled since its source was last
    given. *)
Fixpoint shader_compiled (s : Z) (t : list Call) : bool :=
  match t with
  | [] => false
  | glCompileShader n :: older =>
      if n =? s then true else shader_compiled s older
  | glShaderSource n _ :: older =>
      if n =? s then false else shader_compiled s older
  | _ :: older => shader_compiled s older
  end.

(** The shader objects attached to a program, latest first. *)
Fixpoint attached_shaders (p : Z) (t : list Call) : list Z :=
  match t with
  | [] => []
  | glAttachShader q s :: older =>
      if q =? p then s :: attached_shaders p older
      else attached_shaders p older
  | _ :: older => attached_shaders p older
  end.

(** What a program was last linked from: for each shader object attached
    when [glLinkProgram] was called, its stage, its source, and whether it
    was then alive and compiled.  [None] for a program never linked. *)
Fixpoint link_inputs (p : Z) (t : list Call)
  : option (list (option GLenum * option string * bool)) :=
  match t with
  | [] => None
  | glLinkProgram q :: older =>
      if q =? p then
        Some (map (fun s =>
                     (shader_kind s older, shader_text s older,
                      shader_compiled s older
                      && existsb (Z.eqb s) (stage_objects older)))
                (attached_shaders p older))
      else link_inputs p older
  | _ :: older => link_inputs p older
  end.

(** The answer to the latest link-status query on a program. *)
Fixpoint link_status (p : Z) (t : list Call) : option bool :=
  match t with
  | [] => None
  | glGetProgramiv_LINK_STATUS q ok :: older =>
      if q =? p then Some ok else link_status p older
  | _ :: older => link_status p older
  end.

(** * Verification *)

(** Splits on the test of the innermost conditional in the goal or in a
    hypothesis. *)
Ltac split_if :=
  match goal with
  | |- context [if ?b then _ else _] => destruct b eqn:?
  | H : context [if ?b then _ else _] |- _ => destruct b eqn:?
  | |- context [match ?o with Some _ => _ | None => _ end] => destruct o eqn:?
  | H : context [match ?o with Some _ => _ | None => _ end] |- _ =>
      destruct o eqn:?
  end.

Ltac unfold_effects := unfold bind, call, ret, undefined, fresh_name in *.

(** ** Concrete runs *)

Example float_to_int32_eight : float_to_int32 f_eight = Some 8.
Proof. reflexivity. Qed.

Example float_to_int32_truncates :
  float_to_int32 (S754_finite true 7 (-1)) = Some (-3).
Proof. reflexivity. Qed.

Example float_to_int32_out_of_range :
  float_to_int32 (S754_finite false 1 31) = None.
Proof. reflexivity. Qed.

Example create_on_linux :
  gpu_context_create Linux working_driver 800 600 boot
  = Ok (Some linux_context)
       (mkWorld [printf "GPU: Initialized OpenGL ES backend\n" [];
                 glGetString GL_VERSION (Some "mesa");
                 glGetString GL_RENDERER (Some "mesa");
                 glGetString GL_VENDOR (Some "mesa");
                 eglMakeCurrent 1 2 2 3 true; eglCreateContext 1 7 3 3;
                 eglCreatePbufferSurface 1 7 800 600 2;
                 eglChooseConfig 1 true; eglInitialize 1 true;
                 eglGetDisplay 1; calloc true] 1).
Proof. reflexivity. Qed.

(** When the rendering context cannot be made current, it, the surface
    and the display connection are given back before the block is freed. *)
Example create_on_freebsd_make_current_fails :
  gpu_context_create FreeBSD no_current_driver 800 600 boot
  = Ok None
       (mkWorld [free;
                 printf "GPU: No hardware backend available, using CPU fallback\n" [];
                 eglTerminate 1; eglDestroySurface 1 2; eglDestroyContext 1 3;
                 eglMakeCurrent 1 2 2 3 false; eglCreateContext 1 7 3 3;
                 eglCreatePbufferSurface 1 7 800 600 2;
                 eglChooseConfig 1 true; eglInitialize 1 true;
                 eglGetDisplay 1; calloc true] 1).
Proof. reflexivity. Qed.

Example create_without_egl :
  gpu_context_create Win32 working_driver 800 600 boot
  = Ok None
       (mkWorld [free;
                 printf "GPU: No hardware backend available, using CPU fallback\n" [];
                 calloc true] 1).
Proof. reflexivity. Qed.

Example create_shader_link_fails :
  gpu_context_create_shader Linux no_link_driver (Some linux_context)
    (Some "v") (Some "f") boot
  = Ok 0
       (mkWorld [glDeleteProgram 3; glDeleteShader 2; glDeleteShader 1;
                 printf "Shader program linking failed: %s\n" ["error"];
                 glGetProgramInfoLog 3 "error";
                 glGetProgramiv_LINK_STATUS 3 false; glLinkProgram 3;
                 glAttachShader 3 2; glAttachShader 3 1; glCreateProgram 3;
                 glGetShaderiv_COMPILE_STATUS 2 true; glCompileShader 2;
                 glShaderSource 2 "f"; glCreateShader GL_FRAGMENT_SHADER 2;
                 glGetShaderiv_COMPILE_STATUS 1 true; glCompileShader 1;
                 glShaderSource 1 "v"; glCreateShader GL_VERTEX_SHADER 1] 4).
Proof. reflexivity. Qed.

(** The scenario [Clear, CompositePass] with parameters [1,1,1,1, 0]:
    clear to white, then Normal blending. *)
Example clear_then_composite :
  gpu_execute_render_graph Linux (Some linux_context) (Some [0; 4]) 2
    (Some [f_one; f_one; f_one; f_one; f_zero]) boot
  = Ok tt (mkWorld [glBlendFunc GL_SRC_ALPHA GL_ONE_MINUS_SRC_ALPHA;
                    glEnable GL_BLEND; glClear 16640;
                    glClearColor f_one f_one f_one f_one] 1).
Proof. reflexivity. Qed.

Section Negotiation.

Variable plat : Platform.
Variable drv : Driver.

Lemma try_init_vulkan_fails ctx w :
  try_init_vulkan ctx w = Ok (false, ctx) w.
Proof. reflexivity. Qed.

Lemma try_init_opengl_fails ctx w :
  exists ctx', try_init_opengl plat ctx w = Ok (false, ctx') w.
Proof. unfold try_init_opengl; destruct plat; eexists; reflexivity. Qed.

Lemma try_init_opengles_outcome ctx w :
  exists ok ctx' w', try_init_opengles plat drv ctx w = Ok (ok, ctx') w'
    /\ (ok = true -> USE_EGL plat = true
                     /\ backend_type ctx' = GPU_BACKEND_OPENGLES).
Proof.
  unfold try_init_opengles. unfold_effects.
  destruct (USE_EGL plat); [ | do 3 eexists; split; [reflexivity | discriminate] ].
  repeat split_if; do 3 eexists; (split; [reflexivity | ]);
    try discriminate; intros _; split; reflexivity.
Qed.


Lemma try_init_opengles_cleanup ctx w ctx' w' k :
  try_init_opengles plat drv ctx w = Ok (false, ctx') w' ->
  held k (trace w') = held k (trace w).
Proof.
  unfold try_init_opengles. unfold_effects.
  repeat split_if; intros H; inversion H; subst; clear H;
    destruct k; cbn [held acquires trace];
    repeat match goal with
           | E : (_ =? _) = _ |- _ => rewrite E
           | E : negb ?b = _ |- _ => destruct b; simpl in E; try discriminate
           end; cbn [held acquires trace]; lia.
Qed.


Lemma gpu_context_create_outcome width height w :
  exists r w', gpu_context_create plat drv width height w = Ok r w'
    /\ match r with
       | None => forall k, held k (trace w') = held k (trace w)
       | Some c => USE_EGL plat = true
                   /\ backend_type c = GPU_BACKEND_OPENGLES
       end.
Proof.
  unfold gpu_context_create, gpu_context_create_with.
  unfold bind at 1. unfold call at 1.
  destruct (drv_calloc drv); simpl.
  2: { do 2 eexists; split; [reflexivity | intros []; reflexivity]. }
  unfold bind at 1. rewrite try_init_vulkan_fails.
  unfold bind at 1.
  match goal with
  | |- context [try_init_opengl plat ?c ?w0] =>
      destruct (try_init_opengl_fails c w0) as [c1 E1]
  end.
  rewrite E1. unfold bind at 1.
  destruct (try_init_opengles_outcome c1
              (mkWorld (calloc true :: trace w) (next_name w)))
    as (ok & c2 & w2 & E2 & B2).
  rewrite E2. destruct ok.
  - do 2 eexists; split; [reflexivity | ]. exact (B2 eq_refl).
  - do 2 eexists; split; [reflexivity | ].
    intros k. pose proof (try_init_opengles_cleanup _ _ _ _ k E2) as K2.
    destruct k; cbn [held acquires trace] in *; lia.
Qed.

End Negotiation.

(** ** Backend negotiation *)



(** C10. [gpu_context_create] always returns; it returns either no
    context, and then holds no more heap blocks than before the call (the
    block it allocated has been freed), or a context whose backend kind is
    not [GPU_BACKEND_NONE], for which [gpu_context_is_valid] holds. *)
Theorem created_context_is_valid (plat : Platform) (drv : Driver)
    (width height : Z) (w : World) :
  exists r w',
    gpu_context_create plat drv width height w = Ok r w'
    /\ match r with
       | None => held HeapBlock (trace w') = held HeapBlock (trace w)
       | Some c => backend_type c <> GPU_BACKEND_NONE
                   /\ gpu_context_is_valid (Some c) = true
       end.
Proof.
  destruct (gpu_context_create_outcome plat drv width height w)
    as (r & w' & E & R).
  exists r, w'. split; [exact E | ].
  destruct r as [c | ].
  - destruct R as [_ B]. unfold gpu_context_is_valid. rewrite B.
    split; [discriminate | reflexivity].
  - apply R.
Qed.

(** ** Contexts in circulation *)

Lemma Issued_opengles_active plat drv c :
  Issued plat drv c -> opengles_active plat c = true.
Proof.
  induction 1 as [wd ht w c w' E | c x y wd ht w c' w' _ IH E
                   | c s w c' w' _ IH E].
  - destruct (gpu_context_create_outcome plat drv wd ht w)
      as (r & w'' & E' & R).
    rewrite E in E'. inversion E'; subst r w''. destruct R as [U B].
    unfold opengles_active. rewrite U, B. reflexivity.
  - unfold gpu_context_viewport in E. rewrite IH in E.
    unfold_effects. inversion E; subst.
    unfold opengles_active in *. exact IH.
  - unfold gpu_context_use_shader in E. rewrite IH in E.
    unfold_effects. inversion E; subst.
    unfold opengles_active in *. exact IH.
Qed.

Lemma Issued_valid plat drv c :
  Issued plat drv c -> gpu_context_is_valid (Some c) = true.
Proof.
  intros I. apply Issued_opengles_active in I.
  unfold opengles_active in I. apply andb_prop in I. destruct I as [_ B].
  unfold gpu_context_is_valid. destruct (backend_type c);
    [discriminate B | reflexivity ..].
Qed.

Lemma linux_context_issued : Issued Linux working_driver linux_context.
Proof. eapply (issued_create _ _ 800 600 boot). cbv. reflexivity. Qed.

(** ** Fail-soft operations *)

Lemma invalid_context_inactive plat c :
  gpu_context_is_valid (Some c) = false -> opengles_active plat c = false.
Proof.
  unfold gpu_context_is_valid, opengles_active.
  destruct (backend_type c); try discriminate.
  intros _. apply andb_false_r.
Qed.

(** C7. Every per-call operation of gpucontext.h (clear, viewport,
    present, the create, bind and delete operations on shaders, buffers and
    textures, the five uniform uploads, and the two draw calls), run on a
    null or invalid context, returns normally, issues no native call,
    leaves the context structure as it was and, where it returns a handle,
    returns handle 0. *)
Theorem invalid_context_operation_is_noop (plat : Platform) (drv : Driver)
    (op : Operation) (ctx : option GpuContext) (w : World) :
  gpu_context_is_valid ctx = false ->
  perform plat drv op ctx w = Ok (ctx, 0) w.
Proof.
  intros V. destruct ctx as [c | ].
  - apply (invalid_context_inactive plat) in V.
    destruct op; cbn [perform];
      unfold gpu_context_clear, gpu_context_viewport, gpu_context_present,
        gpu_context_create_shader, gpu_context_use_shader,
        gpu_context_delete_shader, gpu_context_create_buffer,
        gpu_context_bind_buffer, gpu_context_delete_buffer,
        gpu_context_create_texture, gpu_context_bind_texture,
        gpu_context_delete_texture, gpu_context_set_uniform_float,
        gpu_context_set_uniform_vec2, gpu_context_set_uniform_vec3,
        gpu_context_set_uniform_vec4, gpu_context_set_uniform_mat4,
        gpu_context_draw_arrays, gpu_context_draw_elements;
      rewrite V; unfold_effects;
      repeat match goal with
             | |- context [match ?o with Some _ => _ | None => _ end] =>
                 destruct o
             end; reflexivity.
  - destruct op; reflexivity.
Qed.

(** A null context, and a context structure whose backend kind is
    [GPU_BACKEND_NONE]. *)
Lemma invalid_context_operation_is_noop_witness :
  perform Linux working_driver (OpClear f_zero f_zero f_zero f_one) None boot
    = Ok (None, 0) boot
  /\ perform Linux working_driver (OpCreateShader (Some "v") (Some "f"))
       (Some zeroed_context) boot
     = Ok (Some zeroed_context, 0) boot.
Proof.
  split.
  - apply (invalid_context_operation_is_noop Linux working_driver
             (OpClear f_zero f_zero f_zero f_one) None boot).
    reflexivity.
  - apply (invalid_context_operation_is_noop Linux working_driver
             (OpCreateShader (Some "v") (Some "f")) (Some zeroed_context) boot).
    reflexivity.
Defined.

(** [gpu_composite_pass], which is not one of those operations, tests its
    context for NULL only: given a context structure whose backend kind is
    [GPU_BACKEND_NONE] it still enables blending and selects the blend
    function.  No such structure is in circulation ([Issued_valid]). *)
Lemma composite_pass_tests_null_only :
  gpu_composite_pass Linux None 1 boot = Ok tt boot
  /\ gpu_composite_pass Linux (Some zeroed_context) 1 boot
     = Ok tt (mkWorld [glBlendFunc GL_DST_COLOR GL_ZERO; glEnable GL_BLEND] 1).
Proof. split; reflexivity. Qed.

(** ** Shader creation *)

Lemma remove_one_head n l : remove_one n (n :: l) = l.
Proof. cbn [remove_one]. rewrite Z.eqb_refl. reflexivity. Qed.

Lemma remove_one_second n m l :
  m <> n -> remove_one n (m :: n :: l) = m :: l.
Proof.
  intros D. cbn [remove_one].
  destruct (Z.eqb_spec m n); [contradiction | ].
  rewrite Z.eqb_refl. reflexivity.
Qed.

Ltac decide_names :=
  repeat match goal with
         | |- context [?a =? ?a] => rewrite (Z.eqb_refl a)
         | |- context [?a =? ?b] =>
             replace (a =? b) with false
               by (symmetry; apply Z.eqb_neq; lia)
         end.

(** C5. On a context in circulation, [gpu_context_create_shader] returns
    normally, having made exactly the calls of one of four runs.  When the
    vertex stage does not compile: its stage object is created, compiled,
    diagnosed and deleted, and 0 is returned.  When the fragment stage does
    not compile: both stage objects are deleted, and 0 is returned.  When
    the program does not link: both stage objects and the program object
    are deleted, and 0 is returned.  Otherwise the handle returned is the
    new program object, which is not 0, was linked from the two stage
    objects (and, its name having nothing attached before, from nothing
    else), both alive and compiled from the two sources given, and was
    reported linked; the two stage objects are deleted after that.  In all
    four runs the stage objects alive afterwards are those alive before,
    and in the first three so are the program objects. *)
Theorem create_shader_releases_stage_objects (plat : Platform) (drv : Driver)
    (c : GpuContext) (vertex_src fragment_src : string) (w : World) :
  Issued plat drv c ->
  0 < next_name w ->
  let vs := next_name w in
  let fs := next_name w + 1 in
  let prog := next_name w + 1 + 1 in
  let log := drv_info_log drv in
  let vertex_ok := drv_compile_status drv GL_VERTEX_SHADER vertex_src in
  let fragment_ok := drv_compile_status drv GL_FRAGMENT_SHADER fragment_src in
  let link_ok := drv_link_status drv vertex_src fragment_src in
  exists handle w',
    gpu_context_create_shader plat drv (Some c)
      (Some vertex_src) (Some fragment_src) w = Ok handle w'
    /\ stage_objects (trace w') = stage_objects (trace w)
    /\ (if vertex_ok && fragment_ok && link_ok
        then handle <> 0
             /\ program_objects (trace w')
                = handle :: program_objects (trace w)
        else handle = 0
             /\ program_objects (trace w') = program_objects (trace w))
    /\ (vertex_ok && fragment_ok && link_ok = true ->
        attached_shaders prog (trace w) = [] ->
        handle = prog
        /\ link_inputs handle (trace w')
           = Some [(Some GL_FRAGMENT_SHADER, Some fragment_src, true);
                   (Some GL_VERTEX_SHADER, Some vertex_src, true)]
        /\ link_status handle (trace w') = Some true)
    /\ trace w'
       = (if negb vertex_ok then
            [glDeleteShader vs;
             printf "Vertex shader compilation failed: %s\n" [log];
             glGetShaderInfoLog vs log;
             glGetShaderiv_COMPILE_STATUS vs false;
             glCompileShader vs; glShaderSource vs vertex_src;
             glCreateShader GL_VERTEX_SHADER vs]
          else if negb fragment_ok then
            [glDeleteShader fs; glDeleteShader vs;
             printf "Fragment shader compilation failed: %s\n" [log];
             glGetShaderInfoLog fs log;
             glGetShaderiv_COMPILE_STATUS fs false;
             glCompileShader fs; glShaderSource fs fragment_src;
             glCreateShader GL_FRAGMENT_SHADER fs;
             glGetShaderiv_COMPILE_STATUS vs true;
             glCompileShader vs; glShaderSource vs vertex_src;
             glCreateShader GL_VERTEX_SHADER vs]
          else if negb link_ok then
            [glDeleteProgram prog; glDeleteShader fs; glDeleteShader vs;
             printf "Shader program linking failed: %s\n" [log];
             glGetProgramInfoLog prog log;
             glGetProgramiv_LINK_STATUS prog false; glLinkProgram prog;
             glAttachShader prog fs; glAttachShader prog vs;
             glCreateProgram prog;
             glGetShaderiv_COMPILE_STATUS fs true;
             glCompileShader fs; glShaderSource fs fragment_src;
             glCreateShader GL_FRAGMENT_SHADER fs;
             glGetShaderiv_COMPILE_STATUS vs true;
             glCompileShader vs; glShaderSource vs vertex_src;
             glCreateShader GL_VERTEX_SHADER vs]
          else
            [glDeleteShader fs; glDeleteShader vs;
             glGetProgramiv_LINK_STATUS prog true; glLinkProgram prog;
             glAttachShader prog fs; glAttachShader prog vs;
             glCreateProgram prog;
             glGetShaderiv_COMPILE_STATUS fs true;
             glCompileShader fs; glShaderSource fs fragment_src;
             glCreateShader GL_FRAGMENT_SHADER fs;
             glGetShaderiv_COMPILE_STATUS vs true;
             glCompileShader vs; glShaderSource vs vertex_src;
             glCreateShader GL_VERTEX_SHADER vs])
         ++ trace w.
Proof.
  intros I P vs fs prog log vertex_ok fragment_ok link_ok.
  subst vs fs prog log vertex_ok fragment_ok link_ok.
  apply Issued_opengles_active in I.
  unfold gpu_context_create_shader. rewrite I.
  unfold gl_create_shader, gl_create_program. unfold_effects.
  cbn [trace next_name].
  destruct (drv_compile_status drv GL_VERTEX_SHADER vertex_src);
    cbn [negb andb trace next_name].
  2: { do 2 eexists. split; [reflexivity | ].
       cbn [trace stage_objects program_objects].
       rewrite remove_one_head.
       split; [reflexivity | ]. split; [split; reflexivity | ].
       split; [intros D; discriminate D | reflexivity]. }
  destruct (drv_compile_status drv GL_FRAGMENT_SHADER fragment_src);
    cbn [negb andb trace next_name].
  2: { do 2 eexists. split; [reflexivity | ].
       cbn [trace stage_objects program_objects].
       rewrite remove_one_second by lia. rewrite remove_one_head.
       split; [reflexivity | ]. split; [split; reflexivity | ].
       split; [intros D; discriminate D | reflexivity]. }
  destruct (drv_link_status drv vertex_src fragment_src);
    cbn [negb andb trace next_name].
  - do 2 eexists. split; [reflexivity | ].
    cbn [trace stage_objects program_objects].
    rewrite remove_one_second by lia. rewrite remove_one_head.
    split; [reflexivity | ]. split; [split; [lia | reflexivity] | ].
    split; [ | reflexivity].
    intros _ Fresh. split; [reflexivity | ].
    repeat (progress
              (cbn [link_inputs link_status attached_shaders map shader_kind
                    shader_text shader_compiled stage_objects existsb
                    orb andb];
               decide_names)).
    rewrite Fresh. split; reflexivity.
  - do 2 eexists. split; [reflexivity | ].
    cbn [trace stage_objects program_objects].
    rewrite remove_one_second by lia. rewrite remove_one_head.
    rewrite remove_one_head.
    split; [reflexivity | ]. split; [split; reflexivity | ].
    split; [intros D; discriminate D | reflexivity].
Qed.

(** An invalid fragment source: handle 0, and the vertex stage object that
    had compiled is gone.  Two valid sources: the handle is program 3,
    linked from the compiled stage objects of both sources. *)
Lemma create_shader_releases_stage_objects_witness :
  (exists handle w',
    gpu_context_create_shader Linux working_driver (Some linux_context)
      (Some "void main() {}") (Some "bad") boot = Ok handle w'
    /\ stage_objects (trace w') = stage_objects (trace boot)
    /\ handle = 0
    /\ program_objects (trace w') = program_objects (trace boot))
  /\ (exists handle w',
    gpu_context_create_shader Linux working_driver (Some linux_context)
      (Some "v") (Some "f") boot = Ok handle w'
    /\ handle = 3
    /\ link_inputs handle (trace w')
       = Some [(Some GL_FRAGMENT_SHADER, Some "f", true);
               (Some GL_VERTEX_SHADER, Some "v", true)]
    /\ stage_objects (trace w') = []).
Proof.
  split.
  - destruct (create_shader_releases_stage_objects Linux working_driver
                linux_context "void main() {}" "bad" boot
                linux_context_issued eq_refl)
      as (h & w' & E & S & R & _).
    exists h, w'. split; [exact E | ]. split; [exact S | exact R].
  - destruct (create_shader_releases_stage_objects Linux working_driver
                linux_context "v" "f" boot
                linux_context_issued eq_refl)
      as (h & w' & E & S & _ & L & _).
    exists h, w'. split; [exact E | ].
    destruct (L eq_refl eq_refl) as (H & LI & _).
    split; [exact H | ]. split; [exact LI | exact S].
Defined.

(** ** Uniform upload *)

Lemma use_shader_records_program plat drv c shader w c' w' :
  Issued plat drv c ->
  gpu_context_use_shader plat (Some c) shader w = Ok (Some c') w' ->
  current_program c' = shader /\ opengles_active plat c' = true.
Proof.
  intros I E. pose proof (Issued_opengles_active _ _ _ I) as A.
  unfold gpu_context_use_shader in E. rewrite A in E.
  unfold_effects. inversion E; subst. split; [reflexivity | exact A].
Qed.

(** C8. After [gpu_context_use_shader] has bound [shader], each of the
    five uniform setters looks the name up once, in [shader] (the program
    recorded in the context), and the call returns normally.  When the
    location found is negative nothing is uploaded; otherwise the one
    upload made carries the value to that location. *)
Theorem uniform_upload_resolves_against_bound_program
    (plat : Platform) (drv : Driver) (c c' : GpuContext) (shader : GpuShader)
    (w0 w1 w : World) (name : string) (v : UniformValue) :
  Issued plat drv c ->
  gpu_context_use_shader plat (Some c) shader w0 = Ok (Some c') w1 ->
  let location := drv_glGetUniformLocation drv shader name in
  exists w',
    set_uniform plat drv (Some c') name v w = Ok tt w'
    /\ uniform_lookups (trace w') = (shader, name) :: uniform_lookups (trace w)
    /\ (location < 0 ->
        uniform_uploads (trace w') = uniform_uploads (trace w))
    /\ (0 <= location ->
        uniform_uploads (trace w')
        = upload_of location v :: uniform_uploads (trace w)).
Proof.
  intros I E location.
  destruct (use_shader_records_program _ _ _ _ _ _ _ I E) as [P A].
  subst location.
  destruct v; cbn [set_uniform upload_of];
    unfold gpu_context_set_uniform_float, gpu_context_set_uniform_vec2,
      gpu_context_set_uniform_vec3, gpu_context_set_uniform_vec4,
      gpu_context_set_uniform_mat4;
    rewrite A, P; unfold_effects; cbn [trace next_name];
    destruct (Z.leb_spec 0 (drv_glGetUniformLocation drv shader name));
    eexists; (split; [reflexivity | ]);
    cbn [trace uniform_lookups uniform_uploads filter is_uniform_upload];
    (split; [reflexivity | ]); split; intros; try lia; reflexivity.
Qed.

(** The program bound last is the one consulted: 9 after 5; ["u_color"]
    is found at location 4 and uploaded to, ["u_missing"] is not found and
    only looked up. *)
Lemma uniform_upload_resolves_against_bound_program_witness :
  (exists w',
     set_uniform Linux working_driver
       (Some (set_current_program 9 linux_context)) "u_color" (UFloat f_one)
       boot = Ok tt w'
     /\ uniform_lookups (trace w') = [(9, "u_color")]
     /\ uniform_uploads (trace w') = [glUniform1f 4 f_one])
  /\ (exists w',
     set_uniform Linux working_driver
       (Some (set_current_program 9 linux_context)) "u_missing"
       (UVec2 f_one f_zero) boot = Ok tt w'
     /\ uniform_lookups (trace w') = [(9, "u_missing")]
     /\ uniform_uploads (trace w') = []).
Proof.
  assert (I5 : Issued Linux working_driver
                 (set_current_program 5 linux_context)).
  { eapply (issued_use_shader _ _ linux_context 5 boot).
    - exact linux_context_issued.
    - reflexivity. }
  split.
  - destruct (uniform_upload_resolves_against_bound_program
                Linux working_driver (set_current_program 5 linux_context)
                (set_current_program 9 linux_context) 9 boot
                (mkWorld [glUseProgram 9] 1) boot "u_color" (UFloat f_one)
                I5 eq_refl) as (w' & E & L & _ & U).
    exists w'. split; [exact E | ]. split; [exact L | ].
    apply U. vm_compute. discriminate.
  - destruct (uniform_upload_resolves_against_bound_program
                Linux working_driver (set_current_program 5 linux_context)
                (set_current_program 9 linux_context) 9 boot
                (mkWorld [glUseProgram 9] 1) boot "u_missing"
                (UVec2 f_one f_zero)
                I5 eq_refl) as (w' & E & L & N & _).
    exists w'. split; [exact E | ]. split; [exact L | ].
    apply N. reflexivity.
Defined.

(** ** Composite pass *)

Lemma Issued_has_opengl plat drv c : Issued plat drv c -> HAS_OPENGL plat = true.
Proof.
  intros I. apply Issued_opengles_active in I. unfold opengles_active in I.
  apply andb_prop in I. destruct I as [U _]. destruct plat; try discriminate U;
    reflexivity.
Qed.

(** C6. On a context in circulation [gpu_composite_pass] returns
    normally.  For mode 0, 1, 2 or 3 the blend function in force afterwards
    is the one the specification names for Normal, Multiply, Screen or
    Overlay; for any other mode it is the one in force before the call.  A
    second call with the same mode leaves the blend function of the first
    in force. *)
Theorem composite_pass_blend_function (plat : Platform) (drv : Driver)
    (c : GpuContext) (blend_mode : Z) (w : World) :
  Issued plat drv c ->
  exists w1 w2,
    gpu_composite_pass plat (Some c) blend_mode w = Ok tt w1
    /\ gpu_composite_pass plat (Some c) blend_mode w1 = Ok tt w2
    /\ blend_func (trace w2) = blend_func (trace w1)
    /\ match spec_blend_function blend_mode with
       | Some f => blend_func (trace w1) = Some f
       | None => blend_func (trace w1) = blend_func (trace w)
       end
    /\ (blend_mode < 0 \/ 3 < blend_mode ->
        blend_func (trace w1) = blend_func (trace w)).
Proof.
  intros I. apply Issued_has_opengl in I.
  unfold gpu_composite_pass. rewrite I. unfold_effects. cbn [trace next_name].
  destruct (Z.eqb_spec blend_mode 0) as [-> | N0].
  { do 2 eexists. repeat split; try reflexivity. intros [H | H]; lia. }
  destruct (Z.eqb_spec blend_mode 1) as [-> | N1].
  { do 2 eexists. repeat split; try reflexivity. intros [H | H]; lia. }
  destruct (Z.eqb_spec blend_mode 2) as [-> | N2].
  { do 2 eexists. repeat split; try reflexivity. intros [H | H]; lia. }
  destruct (Z.eqb_spec blend_mode 3) as [-> | N3].
  { do 2 eexists. repeat split; try reflexivity. intros [H | H]; lia. }
  do 2 eexists. repeat split; try reflexivity.
  destruct blend_mode as [ | [ [ | | ] | [ | | ] | ] | ]; try reflexivity; lia.
Qed.

(** Multiply after Normal, and mode 7 after Multiply. *)
Lemma composite_pass_blend_function_witness :
  (exists w1,
     gpu_composite_pass Linux (Some linux_context) 1
       (mkWorld [glBlendFunc GL_SRC_ALPHA GL_ONE_MINUS_SRC_ALPHA] 1) = Ok tt w1
     /\ blend_func (trace w1) = Some (GL_DST_COLOR, GL_ZERO))
  /\ (exists w1,
     gpu_composite_pass Linux (Some linux_context) 7
       (mkWorld [glBlendFunc GL_DST_COLOR GL_ZERO] 1) = Ok tt w1
     /\ blend_func (trace w1) = Some (GL_DST_COLOR, GL_ZERO)).
Proof.
  split.
  - destruct (composite_pass_blend_function Linux working_driver
                linux_context 1
                (mkWorld [glBlendFunc GL_SRC_ALPHA GL_ONE_MINUS_SRC_ALPHA] 1)
                linux_context_issued) as (w1 & w2 & E & _ & _ & S & _).
    exists w1. split; [exact E | exact S].
  - destruct (composite_pass_blend_function Linux working_driver
                linux_context 7
                (mkWorld [glBlendFunc GL_DST_COLOR GL_ZERO] 1)
                linux_context_issued) as (w1 & w2 & E & _ & _ & S & _).
    exists w1. split; [exact E | exact S].
Defined.

(** ** Render graph interpreter *)

Lemma array_get_at {A} (pre : list A) (x : A) (rest : list A) w :
  array_get (pre ++ x :: rest) (Z.of_nat (length pre)) w = Ok x w.
Proof.
  unfold array_get. rewrite Nat2Z.id.
  rewrite nth_error_app2 by apply Nat.le_refl.
  rewrite Nat.sub_diag. reflexivity.
Qed.

(** The loop of the code and the walk over the list of nodes agree. *)
Lemma render_graph_loop_run plat ctx params rest :
  forall pre param_offset w,
    render_graph_loop plat ctx (pre ++ rest) params (length rest)
      (Z.of_nat (length pre)) param_offset w
    = (render_graph_run plat ctx params rest param_offset ;; ret tt) w.
Proof.
  induction rest as [ | n rest IH]; intros pre off w.
  - reflexivity.
  - cbn [render_graph_loop render_graph_run length].
    unfold bind at 1. rewrite array_get_at.
    unfold bind.
    destruct (render_graph_node plat ctx params n off w) as [off' w' | w'];
      [ | reflexivity].
    specialize (IH (pre ++ [n]) off' w').
    rewrite <- app_assoc in IH. cbn [app] in IH.
    rewrite length_app in IH. cbn [length] in IH.
    replace (Z.of_nat (length pre + 1)) with (Z.of_nat (length pre) + 1)
      in IH by lia.
    rewrite IH. reflexivity.
Qed.

Lemma gpu_execute_render_graph_run plat c nodes params w :
  gpu_execute_render_graph plat (Some c) (Some nodes)
    (Z.of_nat (length nodes)) (Some params) w
  = (render_graph_run plat (Some c) params nodes 0 ;; ret tt) w.
Proof.
  unfold gpu_execute_render_graph. rewrite Nat2Z.id.
  exact (render_graph_loop_run plat (Some c) params nodes [] 0 w).
Qed.

Lemma render_graph_run_app plat ctx params pre post :
  forall param_offset w,
    render_graph_run plat ctx params (pre ++ post) param_offset w
    = (off <- render_graph_run plat ctx params pre param_offset ;;
       render_graph_run plat ctx params post off) w.
Proof.
  induction pre as [ | n pre IH]; intros off w.
  - reflexivity.
  - cbn [app render_graph_run]. unfold bind.
    destruct (render_graph_node plat ctx params n off w) as [off' w' | w'];
      [ | reflexivity].
    rewrite IH. reflexivity.
Qed.

Lemma unrecognized_node_tests t :
  recognized t = false ->
  (t =? 0) = false /\ (t =? 1) = false /\ (t =? 2) = false
  /\ (t =? 3) = false /\ (t =? 4) = false /\ (t =? 5) = false.
Proof.
  unfold recognized. intros R. apply andb_false_iff in R.
  repeat split; apply Z.eqb_neq; destruct R as [R | R];
    [ apply Z.leb_gt in R | apply Z.leb_gt in R | .. ]; lia.
Qed.

(** C9. A node whose type tag is none of 0 to 5 returns normally, issues
    no call and leaves the cursor where it was; a graph that contains such a
    node runs exactly as the graph without it, so the nodes after it are
    executed with the cursor the nodes before it left. *)
Theorem unrecognized_node_is_skipped (plat : Platform) (c : GpuContext)
    (params : list float) (pre post : list Z) (node_type : Z)
    (param_offset : Z) (w : World) :
  recognized node_type = false ->
  render_graph_node plat (Some c) params node_type param_offset w
    = Ok param_offset w
  /\ gpu_execute_render_graph plat (Some c) (Some (pre ++ node_type :: post))
       (Z.of_nat (length (pre ++ node_type :: post))) (Some params) w
     = gpu_execute_render_graph plat (Some c) (Some (pre ++ post))
         (Z.of_nat (length (pre ++ post))) (Some params) w.
Proof.
  intros R.
  destruct (unrecognized_node_tests node_type R)
    as (T0 & T1 & T2 & T3 & T4 & T5).
  assert (N : forall off w0,
             render_graph_node plat (Some c) params node_type off w0
             = Ok off w0).
  { intros off w0. unfold render_graph_node.
    rewrite T0, T1, T2, T3, T4, T5. reflexivity. }
  split; [apply N | ].
  rewrite !gpu_execute_render_graph_run.
  unfold bind. rewrite !render_graph_run_app.
  unfold bind.
  destruct (render_graph_run plat (Some c) params pre 0 w) as [off w0 | w0];
    [ | reflexivity].
  cbn [render_graph_run]. unfold bind. rewrite N. reflexivity.
Qed.

(** Tag 9 between a Clear and a CompositePass: both still run, the
    CompositePass reading its mode at cursor 4. *)
Lemma unrecognized_node_is_skipped_witness :
  gpu_execute_render_graph Linux (Some linux_context) (Some [0; 9; 4]) 3
    (Some [f_one; f_one; f_one; f_one; f_zero]) boot
  = Ok tt (mkWorld [glBlendFunc GL_SRC_ALPHA GL_ONE_MINUS_SRC_ALPHA;
                    glEnable GL_BLEND; glClear 16640;
                    glClearColor f_one f_one f_one f_one] 1).
Proof.
  refine (eq_trans
            (proj2 (unrecognized_node_is_skipped Linux linux_context
                      [f_one; f_one; f_one; f_one; f_zero] [0] [4] 9 0 boot
                      eq_refl)) _).
  reflexivity.
Defined.

(** *** What each recognized node runs *)

Lemma array_get_block {A} (pre block post : list A) (k : Z) (v : A) w :
  0 <= k ->
  nth_error block (Z.to_nat k) = Some v ->
  Z.of_nat (length pre) + k < 2 ^ 32 ->
  array_get (pre ++ block ++ post) (wrap32 (Z.of_nat (length pre) + k)) w
  = Ok v w.
Proof.
  intros K N B. unfold wrap32. rewrite Z.mod_small by lia.
  unfold array_get.
  replace (Z.to_nat (Z.of_nat (length pre) + k))
    with (length pre + Z.to_nat k)%nat by lia.
  rewrite nth_error_app2 by lia.
  replace (length pre + Z.to_nat k - length pre)%nat with (Z.to_nat k) by lia.
  rewrite nth_error_app1 by (apply nth_error_Some; congruence).
  rewrite N. reflexivity.
Qed.

Ltac read_block :=
  repeat (unfold bind at 1;
          erewrite array_get_block by (reflexivity || lia)).

(** With the cursor at the start of a node's parameter block, Clear,
    BlurPass, ShadowPass, CompositePass and ColorAdjust call the operation
    or pass of that name with the values of the block, in the positions the
    code gives them, and return the cursor advanced by the arity. *)
Lemma render_graph_node_dispatch plat ctx (pre post : list float) :
  let off := Z.of_nat (length pre) in
  off + 8 < 2 ^ 32 ->
  (forall r g b a w,
      render_graph_node plat ctx (pre ++ [r; g; b; a] ++ post) 0 off w
      = (gpu_context_clear plat ctx r g b a ;; ret (off + 4)) w)
  /\ (forall radius s samples w,
      float_to_int32 s = Some samples ->
      render_graph_node plat ctx (pre ++ [radius; s] ++ post) 2 off w
      = (gpu_blur_pass ctx 0 0 0 0 radius samples ;; ret (off + 2)) w)
  /\ (forall ox oy c0 c1 c2 c3 blur opacity w,
      render_graph_node plat ctx
        (pre ++ [ox; oy; c0; c1; c2; c3; blur; opacity] ++ post) 3 off w
      = (gpu_shadow_pass ctx 0 0 0 0 ox oy (Some [c0; c1; c2; c3])
           blur opacity ;; ret (off + 8)) w)
  /\ (forall m blend_mode w,
      float_to_int32 m = Some blend_mode ->
      render_graph_node plat ctx (pre ++ [m] ++ post) 4 off w
      = (gpu_composite_pass plat ctx blend_mode ;; ret (off + 1)) w)
  /\ (forall br co sa w,
      render_graph_node plat ctx (pre ++ [br; co; sa] ++ post) 5 off w
      = (gpu_color_adjust_pass ctx 0 0 0 0 br co sa ;; ret (off + 3)) w).
Proof.
  intros off B. subst off.
  assert (W : forall k, 0 <= k <= 8 ->
                wrap32 (Z.of_nat (length pre) + k)
                = Z.of_nat (length pre) + k).
  { intros k K. unfold wrap32. apply Z.mod_small. lia. }
  repeat split; intros; unfold render_graph_node; cbv zeta;
    cbn [Z.eqb Pos.eqb]; read_block.
  - rewrite W by lia. reflexivity.
  - unfold cast_int32. rewrite H. unfold bind at 1. unfold ret at 1.
    rewrite W by lia. reflexivity.
  - rewrite W by lia. reflexivity.
  - unfold cast_int32. rewrite H. unfold bind at 1. unfold ret at 1.
    rewrite W by lia. reflexivity.
  - rewrite W by lia. reflexivity.
Qed.

(** *** Cursor accounting *)

Ltac run_binds H :=
  unfold bind in H;
  repeat match type of H with
         | context [match ?m ?w with Ok _ _ => _ | Undefined _ => _ end] =>
             destruct (m w); try discriminate H
         end.

(** A node that returns leaves the cursor advanced by the arity of its
    type, modulo the width of [param_offset]. *)
Lemma render_graph_node_cursor plat ctx params node_type off w off' w' :
  render_graph_node plat ctx params node_type off w = Ok off' w' ->
  wrap32 off' = wrap32 (off + node_arity node_type).
Proof.
  unfold render_graph_node, node_arity. cbv zeta.
  assert (I : forall z, wrap32 (wrap32 z) = wrap32 z).
  { intros z. unfold wrap32. apply Z.mod_mod. discriminate. }
  repeat match goal with
         | |- context [if ?b then _ else _] => destruct b
         end;
    intros H; run_binds H; unfold ret in H; inversion H; subst;
    rewrite ?I, ?Z.add_0_r; reflexivity.
Qed.

(** A graph that runs to the end leaves the cursor at the total arity of
    its nodes. *)
Lemma render_graph_run_cursor plat ctx params nodes :
  forall off w off' w',
    render_graph_run plat ctx params nodes off w = Ok off' w' ->
    wrap32 off' = wrap32 (off + total_arity nodes).
Proof.
  induction nodes as [ | n rest IH]; intros off w off' w' H.
  - cbn in H. inversion H. rewrite Z.add_0_r. reflexivity.
  - cbn [render_graph_run total_arity] in H |- *. unfold bind in H.
    destruct (render_graph_node plat ctx params n off w) as [o1 w1 | w1] eqn:N;
      [ | discriminate H].
    apply render_graph_node_cursor in N. apply IH in H.
    rewrite H. unfold wrap32 in *.
    rewrite <- Zplus_mod_idemp_l, N, Zplus_mod_idemp_l.
    f_equal. lia.
Qed.

(** *** Parameters beyond the total arity *)

Lemma covers_refl {A} (m : M A) : covers m m.
Proof. intros w a w' E. exact E. Qed.

Lemma covers_bind {A B} (m1 m2 : M A) (k1 k2 : A -> M B) :
  covers m1 m2 -> (forall a, covers (k1 a) (k2 a)) ->
  covers (bind m1 k1) (bind m2 k2).
Proof.
  unfold covers, bind. intros Hm Hk w b w' E.
  destruct (m1 w) as [a w1 | w1] eqn:E1; [ | discriminate].
  rewrite (Hm _ _ _ E1). exact (Hk _ _ _ _ E).
Qed.

Lemma array_get_surplus {A} (a extra : list A) (i : Z) :
  covers (array_get a i) (array_get (a ++ extra) i).
Proof.
  unfold covers, array_get. intros w v w' E.
  destruct (nth_error a (Z.to_nat i)) as [x | ] eqn:N; [ | discriminate].
  rewrite nth_error_app1 by (apply nth_error_Some; congruence).
  rewrite N. exact E.
Qed.

Ltac covers_step :=
  apply covers_bind;
  [ first [apply array_get_surplus | apply covers_refl] | intros ? ].

Lemma render_graph_node_surplus plat ctx params extra node_type off :
  covers (render_graph_node plat ctx params node_type off)
         (render_graph_node plat ctx (params ++ extra) node_type off).
Proof.
  unfold render_graph_node. cbv zeta.
  repeat match goal with
         | |- context [if ?b then _ else _] => destruct b
         end;
    repeat covers_step; apply covers_refl.
Qed.

Lemma render_graph_loop_surplus plat ctx nodes params extra remaining :
  forall i off,
    covers (render_graph_loop plat ctx nodes params remaining i off)
           (render_graph_loop plat ctx nodes (params ++ extra) remaining i off).
Proof.
  induction remaining as [ | k IH]; intros i off.
  - apply covers_refl.
  - cbn [render_graph_loop].
    apply covers_bind; [apply covers_refl | intros t].
    apply covers_bind; [apply render_graph_node_surplus | intros off'].
    apply IH.
Qed.

(** A graph that runs to the end on a parameter sequence runs in the same
    way, with the same calls, on that sequence followed by any surplus. *)
Lemma render_graph_ignores_surplus_parameters (plat : Platform)
    (ctx : option GpuContext) (nodes : option (list Z)) (node_count : Z)
    (params extra : list float) (w w' : World) :
  gpu_execute_render_graph plat ctx nodes node_count (Some params) w
    = Ok tt w' ->
  gpu_execute_render_graph plat ctx nodes node_count
    (Some (params ++ extra)) w = Ok tt w'.
Proof.
  unfold gpu_execute_render_graph.
  destruct ctx as [c | ]; [ | exact (fun E => E)].
  destruct nodes as [ns | ]; [ | exact (fun E => E)].
  apply render_graph_loop_surplus.
Qed.

(** C1, as stated, fails.  On a context in circulation, the graph
    [Clear] (total arity 4) given 5 parameters is executed: the clear colour
    is set and the buffers are cleared.  The graph [Clear, CompositePass]
    (total arity 5) given 4 parameters is not rejected up front either: the
    clear is carried out, and then the CompositePass node reads past the end
    of the parameters. *)
Lemma arity_mismatch_is_not_rejected :
  Issued Linux working_driver linux_context
  /\ total_arity [0]
     <> Z.of_nat (length [f_zero; f_zero; f_zero; f_one; f_seven])
  /\ gpu_execute_render_graph Linux (Some linux_context) (Some [0]) 1
       (Some [f_zero; f_zero; f_zero; f_one; f_seven]) boot
     = Ok tt (mkWorld [glClear 16640;
                       glClearColor f_zero f_zero f_zero f_one] 1)
  /\ total_arity [0; 4] <> Z.of_nat (length [f_one; f_one; f_one; f_one])
  /\ gpu_execute_render_graph Linux (Some linux_context) (Some [0; 4]) 2
       (Some [f_one; f_one; f_one; f_one]) boot
     = Undefined (mkWorld [glClear 16640;
                           glClearColor f_one f_one f_one f_one] 1).
Proof.
  split; [exact linux_context_issued | ].
  repeat split; (reflexivity || discriminate).
Qed.

(** C2, the code at the scenario of the specification.  [gpu_blur_pass]
    returns without a single native call, on any context and for any
    arguments: no horizontal pass, no vertical pass, no offscreen target.
    The graph [BlurPass] with parameters [4.0, 8] leaves the cursor at 2 and
    the world as it was. *)
Theorem blur_pass_issues_no_call :
  (forall ctx x y width height radius samples w,
      gpu_blur_pass ctx x y width height radius samples w = Ok tt w)
  /\ Issued Linux working_driver linux_context
  /\ render_graph_run Linux (Some linux_context) [f_four; f_eight] [2] 0 boot
     = Ok 2 boot
  /\ gpu_execute_render_graph Linux (Some linux_context) (Some [2]) 1
       (Some [f_four; f_eight]) boot = Ok tt boot.
Proof.
  split; [ intros [c | ]; reflexivity | ].
  split; [exact linux_context_issued | ].
  split; reflexivity.
Qed.

(** C3, the code at a DrawRect node.  The node moves the cursor by 8 and
    that is all it does: it reads no parameter and calls nothing, whatever
    the context and the parameters.  The graph [DrawRect] with eight
    parameters leaves the world as it was. *)
Theorem draw_rect_node_calls_nothing :
  (forall plat ctx params param_offset w,
      render_graph_node plat ctx params 1 param_offset w
      = Ok (wrap32 (param_offset + 8)) w)
  /\ Issued Linux working_driver linux_context
  /\ gpu_execute_render_graph Linux (Some linux_context) (Some [1]) 1
       (Some [f_zero; f_zero; f_eight; f_eight;
              f_one; f_zero; f_zero; f_one]) boot = Ok tt boot.
Proof.
  split; [ intros; reflexivity | ].
  split; [exact linux_context_issued | reflexivity].
Qed.

(** * Further properties of the code *)

(** ** Creation and destruction *)

(** Everything a successful creation fixes. *)
Lemma gpu_context_create_success plat drv wd ht w c w' :
  gpu_context_create plat drv wd ht w = Ok (Some c) w' ->
  c = mkGpuContext GPU_BACKEND_OPENGLES wd ht
        (drv_eglGetDisplay drv) (drv_eglCreateContext drv)
        (drv_eglCreatePbufferSurface drv) (drv_egl_config drv) 0
        (identity_string plat drv GL_RENDERER 255 "OpenGL (not initialized)")
        (identity_string plat drv GL_VENDOR 127 "System")
        (identity_string plat drv GL_VERSION 63 "N/A")
  /\ backend_available plat drv = true
  /\ forall k, held k (trace w') = held k (trace w) + 1.
Proof.
  unfold gpu_context_create, gpu_context_create_with, try_init_vulkan,
    try_init_opengl, try_init_opengles, backend_available, identity_string.
  unfold_effects.
  destruct plat; cbn [USE_EGL andb negb];
    repeat split_if; intros H; inversion H; subst; clear H;
    repeat match goal with
           | E : negb ?b = false |- _ =>
               apply negb_false_iff in E; rewrite E
           | E : (_ =? _) = false |- _ => rewrite E
           end;
    (split; [reflexivity | split; [reflexivity | ]]);
    intros k; destruct k; cbn [held acquires trace];
    repeat match goal with
           | E : (_ =? _) = false |- _ => rewrite E
           end; lia.
Qed.

(** X1. [gpu_context_create] returns a context exactly when the build has
    EGL, the allocation succeeds and every EGL step of the OpenGL ES probe
    succeeds; the Vulkan and desktop OpenGL probes never change that. *)
Theorem creation_succeeds_iff_backend_available (plat : Platform)
    (drv : Driver) (width height : Z) (w : World) :
  exists r w',
    gpu_context_create plat drv width height w = Ok r w'
    /\ (match r with Some _ => true | None => false end)
       = backend_available plat drv.
Proof.
  unfold gpu_context_create, gpu_context_create_with, try_init_vulkan,
    try_init_opengl, try_init_opengles, backend_available.
  unfold_effects.
  destruct plat; cbn [USE_EGL andb negb];
    repeat split_if; do 2 eexists; (split; [reflexivity | ]);
    repeat match goal with
           | E : negb ?b = false |- _ =>
               apply negb_false_iff in E; rewrite E
           | E : negb ?b = true |- _ =>
               apply negb_true_iff in E; rewrite E
           | E : (_ =? _) = _ |- _ => rewrite E
           end;
    cbn [andb negb]; rewrite ?andb_false_r; reflexivity.
Qed.

(** X2. On a build without EGL (Windows, macOS, any other platform)
    [gpu_context_create] never returns a context and calls nothing but
    [calloc], [printf] and [free]. *)
Theorem creation_without_egl_fails (plat : Platform) (drv : Driver)
    (width height : Z) (w : World) :
  USE_EGL plat = false ->
  gpu_context_create plat drv width height w
  = Ok None
      (mkWorld
         ((if drv_calloc drv
           then [free;
                 printf "GPU: No hardware backend available, using CPU fallback\n" [];
                 calloc true]
           else [calloc false]) ++ trace w)
         (next_name w)).
Proof.
  intros E.
  unfold gpu_context_create, gpu_context_create_with, try_init_vulkan,
    try_init_opengl, try_init_opengles.
  rewrite E. unfold_effects.
  destruct (drv_calloc drv); destruct plat; try discriminate E; reflexivity.
Qed.

Lemma creation_without_egl_fails_witness :
  gpu_context_create Apple working_driver 1024 768 boot
  = Ok None
      (mkWorld [free;
                printf "GPU: No hardware backend available, using CPU fallback\n" [];
                calloc true] 1).
Proof.
  exact (creation_without_egl_fails Apple working_driver 1024 768 boot
           eq_refl).
Defined.

(** X3. A context just created records the width and height asked for, as
    given, has no program bound, and reports the OpenGL ES backend. *)
Theorem created_context_records_request (plat : Platform) (drv : Driver)
    (wd ht : Z) (w : World) (c : GpuContext) (w' : World) :
  gpu_context_create plat drv wd ht w = Ok (Some c) w' ->
  width c = wd /\ height c = ht /\ current_program c = 0
  /\ gpu_context_get_backend (Some c) = GPU_BACKEND_OPENGLES.
Proof.
  intros E. destruct (gpu_context_create_success _ _ _ _ _ _ _ E) as [-> _].
  repeat split.
Qed.

Lemma created_context_records_request_witness :
  width linux_context = 800 /\ height linux_context = 600
  /\ current_program linux_context = 0
  /\ gpu_context_get_backend (Some linux_context) = GPU_BACKEND_OPENGLES.
Proof.
  exact (created_context_records_request Linux working_driver 800 600 boot
           linux_context _ create_on_linux).
Defined.

(** What no operation changes in a context in circulation. *)
Lemma Issued_identity plat drv c :
  Issued plat drv c ->
  backend_available plat drv = true
  /\ backend_type c = GPU_BACKEND_OPENGLES
  /\ egl_display c = drv_eglGetDisplay drv
  /\ egl_surface c = drv_eglCreatePbufferSurface drv
  /\ egl_context c = drv_eglCreateContext drv
  /\ device_name c
     = identity_string plat drv GL_RENDERER 255 "OpenGL (not initialized)"
  /\ vendor_name c = identity_string plat drv GL_VENDOR 127 "System"
  /\ driver_version c = identity_string plat drv GL_VERSION 63 "N/A".
Proof.
  induction 1 as [wd ht w c w' E | c x y wd ht w c' w' I IH E
                   | c s w c' w' I IH E].
  - destruct (gpu_context_create_success _ _ _ _ _ _ _ E) as (-> & A & _).
    repeat split. exact A.
  - unfold gpu_context_viewport in E.
    rewrite (Issued_opengles_active _ _ _ I) in E.
    unfold_effects. inversion E; subst. exact IH.
  - unfold gpu_context_use_shader in E.
    rewrite (Issued_opengles_active _ _ _ I) in E.
    unfold_effects. inversion E; subst. exact IH.
Qed.

Lemma backend_available_handles plat drv :
  backend_available plat drv = true ->
  drv_eglGetDisplay drv <> EGL_NO_DISPLAY
  /\ drv_eglCreatePbufferSurface drv <> EGL_NO_SURFACE
  /\ drv_eglCreateContext drv <> EGL_NO_CONTEXT.
Proof.
  unfold backend_available. intros A.
  repeat (apply andb_prop in A; destruct A as [A ?]).
  repeat split; apply Z.eqb_neq; apply negb_true_iff; assumption.
Qed.

(** X4. Whatever has been done with it since its creation, a context in
    circulation carries as device, vendor and version strings what
    [glGetString] answered at creation, cut to 255, 127 and 63 characters.
    Where [glGetString] answered NULL the field is empty on Linux, and on
    FreeBSD holds what the failed desktop OpenGL probe wrote there. *)
Theorem issued_context_identity_strings (plat : Platform) (drv : Driver)
    (c : GpuContext) :
  Issued plat drv c ->
  device_name c
  = identity_string plat drv GL_RENDERER 255 "OpenGL (not initialized)"
  /\ vendor_name c = identity_string plat drv GL_VENDOR 127 "System"
  /\ driver_version c = identity_string plat drv GL_VERSION 63 "N/A".
Proof.
  intros I. destruct (Issued_identity _ _ _ I) as (_ & _ & _ & _ & _ & S).
  exact S.
Qed.

(** On FreeBSD, with a [glGetString] that answers NULL, the OpenGL ES
    context names itself as the desktop OpenGL placeholder. *)
Lemma issued_context_identity_strings_witness :
  device_name (mkGpuContext GPU_BACKEND_OPENGLES 640 480 1 3 2 7 0
                 "OpenGL (not initialized)" "System" "N/A")
  = "OpenGL (not initialized)"
  /\ vendor_name (mkGpuContext GPU_BACKEND_OPENGLES 640 480 1 3 2 7 0
                    "OpenGL (not initialized)" "System" "N/A") = "System"
  /\ driver_version (mkGpuContext GPU_BACKEND_OPENGLES 640 480 1 3 2 7 0
                       "OpenGL (not initialized)" "System" "N/A") = "N/A".
Proof.
  apply (issued_context_identity_strings FreeBSD silent_driver).
  eapply (issued_create _ _ 640 480 boot). cbv. reflexivity.
Defined.

(** X5. A context in circulation holds the display, surface and rendering
    context handles that EGL returned at its creation, none of them null;
    no operation replaces them. *)
Theorem issued_context_egl_handles (plat : Platform) (drv : Driver)
    (c : GpuContext) :
  Issued plat drv c ->
  egl_display c = drv_eglGetDisplay drv
  /\ egl_surface c = drv_eglCreatePbufferSurface drv
  /\ egl_context c = drv_eglCreateContext drv
  /\ egl_display c <> EGL_NO_DISPLAY
  /\ egl_surface c <> EGL_NO_SURFACE
  /\ egl_context c <> EGL_NO_CONTEXT.
Proof.
  intros I.
  destruct (Issued_identity _ _ _ I) as (A & _ & D & S & X & _).
  destruct (backend_available_handles _ _ A) as (ND & NS & NX).
  rewrite D, S, X. repeat split; assumption.
Qed.

Lemma issued_context_egl_handles_witness :
  egl_display (set_size 1 1 linux_context) = 1
  /\ egl_surface (set_size 1 1 linux_context) = 2
  /\ egl_context (set_size 1 1 linux_context) = 3
  /\ egl_display (set_size 1 1 linux_context) <> EGL_NO_DISPLAY
  /\ egl_surface (set_size 1 1 linux_context) <> EGL_NO_SURFACE
  /\ egl_context (set_size 1 1 linux_context) <> EGL_NO_CONTEXT.
Proof.
  apply (issued_context_egl_handles Linux working_driver
           (set_size 1 1 linux_context)).
  eapply (issued_viewport _ _ linux_context 0 0 1 1 boot).
  - exact linux_context_issued.
  - reflexivity.
Defined.



(** X7. Destroying a context in circulation, at any later time and after
    any viewport change or program binding, returns normally and makes five
    calls: it unbinds the rendering context, then destroys the rendering
    context, the surface and the display connection obtained at creation,
    then frees the block. *)
Theorem destroy_releases_creation_handles (plat : Platform) (drv : Driver)
    (c : GpuContext) (w : World) :
  Issued plat drv c ->
  let dpy := drv_eglGetDisplay drv in
  gpu_context_destroy plat (Some c) w
  = Ok tt
      (mkWorld
         ([free;
           eglTerminate dpy;
           eglDestroySurface dpy (drv_eglCreatePbufferSurface drv);
           eglDestroyContext dpy (drv_eglCreateContext drv);
           eglMakeCurrent dpy EGL_NO_SURFACE EGL_NO_SURFACE EGL_NO_CONTEXT
             true] ++ trace w)
         (next_name w)).
Proof.
  intros I dpy. subst dpy.
  destruct (Issued_identity _ _ _ I) as (_ & _ & D & S & X & _).
  unfold gpu_context_destroy. rewrite (Issued_opengles_active _ _ _ I).
  unfold_effects. rewrite D, S, X. reflexivity.
Qed.

Lemma destroy_releases_creation_handles_witness :
  gpu_context_destroy Linux (Some (set_current_program 9 linux_context)) boot
  = Ok tt
      (mkWorld [free; eglTerminate 1; eglDestroySurface 1 2;
                eglDestroyContext 1 3; eglMakeCurrent 1 0 0 0 true] 1).
Proof.
  apply (destroy_releases_creation_handles Linux working_driver
           (set_current_program 9 linux_context) boot).
  eapply (issued_use_shader _ _ linux_context 9 boot).
  - exact linux_context_issued.
  - reflexivity.
Defined.

(** ** Device information *)

Lemma strncpy_short n : forall s,
  (String.length s <= n)%nat -> strncpy n s = s.
Proof.
  unfold strncpy. induction n as [ | n IH]; intros [ | a s] L; cbn in *;
    try reflexivity; try lia.
  rewrite IH by lia. reflexivity.
Qed.

Lemma strncpy_length n : forall s, (String.length (strncpy n s) <= n)%nat.
Proof.
  unfold strncpy. induction n as [ | n IH]; intros [ | a s]; cbn;
    try lia.
  specialize (IH s). lia.
Qed.

Lemma identity_string_length plat drv name n placeholder :
  (String.length (identity_string plat drv name n placeholder) <= n)%nat.
Proof.
  unfold identity_string.
  destruct (drv_glGetString drv name); [apply strncpy_length | ].
  destruct plat; cbn; try lia; apply strncpy_length.
Qed.

(** X8. For a context in circulation, [gpu_context_get_device_info]
    overwrites the whole of [*info]: the backend kind is the one
    [gpu_context_get_backend] reports, the three strings are those of the
    context, none shortened, the maximum texture size is the driver's
    answer taken as [uint32_t], and compute support is reported absent. *)
Theorem device_info_reports_context (plat : Platform) (drv : Driver)
    (c : GpuContext) (query : M Z) (stale : GpuDeviceInfo)
    (w : World) (answer : Z) (w' : World) :
  Issued plat drv c ->
  query w = Ok answer w' ->
  gpu_context_get_device_info plat query (Some c) (Some stale) w
  = Ok (Some (mkGpuDeviceInfo (gpu_context_get_backend (Some c))
                (device_name c) (vendor_name c) (driver_version c)
                (wrap32 answer) false)) w'.
Proof.
  intros I Q.
  destruct (Issued_identity _ _ _ I) as (_ & _ & _ & _ & _ & D & V & R).
  unfold gpu_context_get_device_info.
  rewrite (Issued_opengles_active _ _ _ I).
  unfold bind. rewrite Q. unfold ret. cbn [info_backend_type info_device_name
    info_vendor_name info_driver_version gpu_context_get_backend].
  rewrite !strncpy_short; [reflexivity | | | ].
  - rewrite R. apply identity_string_length.
  - rewrite V. apply identity_string_length.
  - rewrite D. apply identity_string_length.
Qed.

(** A driver that answers -1 is reported as 4294967295. *)
Lemma device_info_reports_context_witness :
  gpu_context_get_device_info Linux (ret (-1)) (Some linux_context)
    (Some (mkGpuDeviceInfo GPU_BACKEND_VULKAN "x" "y" "z" 5 true)) boot
  = Ok (Some (mkGpuDeviceInfo GPU_BACKEND_OPENGLES "mesa" "mesa" "mesa"
                4294967295 false)) boot.
Proof.
  exact (device_info_reports_context Linux working_driver linux_context
           (ret (-1)) (mkGpuDeviceInfo GPU_BACKEND_VULKAN "x" "y" "z" 5 true)
           boot (-1) boot linux_context_issued eq_refl).
Defined.

(** ** Shaders, buffers and textures *)

Lemma remove_one_absent n : forall l, ~ In n l -> remove_one n l = l.
Proof.
  induction l as [ | x l IH]; intros N; cbn [remove_one]; [reflexivity | ].
  destruct (Z.eqb_spec x n) as [-> | D].
  - exfalso. apply N. left. reflexivity.
  - rewrite IH; [reflexivity | ]. intros I. apply N. right. exact I.
Qed.

(** X9. Whether it succeeds or not, [gpu_context_create_shader] followed
    by [gpu_context_delete_shader] of the handle it returned leaves the
    program objects as they were: deleting the handle 0 of a failed
    creation takes nothing away. *)
Theorem create_then_delete_shader (plat : Platform) (drv : Driver)
    (c : GpuContext) (vertex_src fragment_src : string) (w : World) :
  Issued plat drv c ->
  0 < next_name w ->
  ~ In 0 (program_objects (trace w)) ->
  exists handle w1 w2,
    gpu_context_create_shader plat drv (Some c)
      (Some vertex_src) (Some fragment_src) w = Ok handle w1
    /\ gpu_context_delete_shader plat (Some c) handle w1 = Ok tt w2
    /\ program_objects (trace w2) = program_objects (trace w)
    /\ stage_objects (trace w2) = stage_objects (trace w).
Proof.
  intros I P Z0. apply Issued_opengles_active in I.
  unfold gpu_context_create_shader, gpu_context_delete_shader. rewrite I.
  unfold gl_create_shader, gl_create_program. unfold_effects.
  cbn [trace next_name].
  destruct (drv_compile_status drv GL_VERTEX_SHADER vertex_src);
    cbn [negb trace next_name].
  2: { do 3 eexists. split; [reflexivity | ]. split; [reflexivity | ].
       cbn [trace stage_objects program_objects].
       rewrite remove_one_head, remove_one_absent by exact Z0. auto. }
  destruct (drv_compile_status drv GL_FRAGMENT_SHADER fragment_src);
    cbn [negb trace next_name].
  2: { do 3 eexists. split; [reflexivity | ]. split; [reflexivity | ].
       cbn [trace stage_objects program_objects].
       rewrite remove_one_second by lia.
       rewrite remove_one_head, remove_one_absent by exact Z0. auto. }
  destruct (drv_link_status drv vertex_src fragment_src);
    cbn [negb trace next_name].
  - do 3 eexists. split; [reflexivity | ]. split; [reflexivity | ].
    cbn [trace stage_objects program_objects].
    rewrite remove_one_second by lia. rewrite !remove_one_head. auto.
  - do 3 eexists. split; [reflexivity | ]. split; [reflexivity | ].
    cbn [trace stage_objects program_objects].
    rewrite remove_one_second by lia. rewrite !remove_one_head.
    rewrite remove_one_absent by exact Z0. auto.
Qed.

Lemma create_then_delete_shader_witness :
  exists handle w1 w2,
    gpu_context_create_shader Linux working_driver (Some linux_context)
      (Some "v") (Some "f") boot = Ok handle w1
    /\ gpu_context_delete_shader Linux (Some linux_context) handle w1
       = Ok tt w2
    /\ program_objects (trace w2) = program_objects (trace boot)
    /\ stage_objects (trace w2) = stage_objects (trace boot).
Proof.
  apply (create_then_delete_shader Linux working_driver linux_context
           "v" "f" boot linux_context_issued eq_refl).
  intros [].
Defined.

(** X10. On a context in circulation [gpu_context_create_buffer] returns a
    new buffer name, not 0, and leaves that buffer bound in place of the one
    bound before, holding the size and data given; the stores of all other
    buffers are as they were. *)
Theorem create_buffer_binds_new_buffer (plat : Platform) (drv : Driver)
    (c : GpuContext) (data : list float) (size : Z) (w : World) :
  Issued plat drv c ->
  0 < next_name w ->
  exists handle w',
    gpu_context_create_buffer plat (Some c) (Some data) size w = Ok handle w'
    /\ handle <> 0
    /\ buffer_objects (trace w') = handle :: buffer_objects (trace w)
    /\ array_buffer_binding (trace w') = handle
    /\ buffer_store handle (trace w') = Some (size, data)
    /\ forall b, b <> handle ->
         buffer_store b (trace w') = buffer_store b (trace w).
Proof.
  intros I P. apply Issued_opengles_active in I.
  unfold gpu_context_create_buffer. rewrite I.
  unfold gl_gen_buffer. unfold_effects. cbn [trace next_name].
  do 2 eexists. split; [reflexivity | ].
  cbn [trace buffer_objects array_buffer_binding buffer_store].
  rewrite Z.eqb_refl. repeat split; try lia.
  intros b D. destruct (Z.eqb_spec (next_name w) b); [congruence | reflexivity].
Qed.

Lemma create_buffer_binds_new_buffer_witness :
  exists handle w',
    gpu_context_create_buffer Linux (Some linux_context)
      (Some [f_zero; f_one]) 8 (mkWorld [glBindBuffer GL_ARRAY_BUFFER 5] 6)
    = Ok handle w'
    /\ handle <> 0
    /\ buffer_objects (trace w') = [handle]
    /\ array_buffer_binding (trace w') = handle
    /\ buffer_store handle (trace w') = Some (8, [f_zero; f_one])
    /\ forall b, b <> handle -> buffer_store b (trace w') = None.
Proof.
  exact (create_buffer_binds_new_buffer Linux working_driver linux_context
           [f_zero; f_one] 8 (mkWorld [glBindBuffer GL_ARRAY_BUFFER 5] 6)
           linux_context_issued eq_refl).
Defined.

(** X11. On a context in circulation [gpu_context_bind_texture] selects
    texture unit [GL_TEXTURE0 + slot], computed in 32 bits, and binds the
    texture there; the bindings of all other units are as they were. *)
Theorem bind_texture_selects_unit (plat : Platform) (drv : Driver)
    (c : GpuContext) (texture slot : Z) (w : World) :
  Issued plat drv c ->
  exists w',
    gpu_context_bind_texture plat (Some c) texture slot w = Ok tt w'
    /\ active_texture_unit (trace w') = wrap32 (GL_TEXTURE0 + slot)
    /\ texture_binding (wrap32 (GL_TEXTURE0 + slot)) (trace w') = texture
    /\ forall u, u <> wrap32 (GL_TEXTURE0 + slot) ->
         texture_binding u (trace w') = texture_binding u (trace w).
Proof.
  intros I. apply Issued_opengles_active in I.
  unfold gpu_context_bind_texture. rewrite I. unfold_effects.
  cbn [trace next_name]. eexists. split; [reflexivity | ].
  cbn [trace active_texture_unit texture_binding].
  rewrite Z.eqb_refl. repeat split.
  intros u D.
  destruct (Z.eqb_spec (wrap32 (GL_TEXTURE0 + slot)) u);
    [congruence | reflexivity].
Qed.

Lemma bind_texture_selects_unit_witness :
  exists w',
    gpu_context_bind_texture Linux (Some linux_context) 12 3 boot = Ok tt w'
    /\ active_texture_unit (trace w') = 33987
    /\ texture_binding 33987 (trace w') = 12
    /\ forall u, u <> 33987 -> texture_binding u (trace w') = 0.
Proof.
  exact (bind_texture_selects_unit Linux working_driver linux_context 12 3
           boot linux_context_issued).
Defined.

(** X12. On a context in circulation [gpu_context_create_texture], with
    or without pixel data, returns a new texture name, not 0, and binds it
    to whichever unit is active, in place of the texture bound there; the
    active unit and the bindings of the other units are as they were, and
    the new texture holds the image given. *)
Theorem create_texture_takes_active_unit (plat : Platform) (drv : Driver)
    (c : GpuContext) (wd ht : Z) (data : option (list Z)) (w : World) :
  Issued plat drv c ->
  0 < next_name w ->
  exists handle w',
    gpu_context_create_texture plat (Some c) wd ht data w = Ok handle w'
    /\ handle <> 0
    /\ texture_objects (trace w') = handle :: texture_objects (trace w)
    /\ active_texture_unit (trace w') = active_texture_unit (trace w)
    /\ texture_binding (active_texture_unit (trace w)) (trace w') = handle
    /\ texture_image handle (trace w')
       = Some (to_int32 wd, to_int32 ht, data)
    /\ forall u, u <> active_texture_unit (trace w) ->
         texture_binding u (trace w') = texture_binding u (trace w).
Proof.
  intros I P. apply Issued_opengles_active in I.
  unfold gpu_context_create_texture. rewrite I.
  unfold gl_gen_texture. unfold_effects. cbn [trace next_name].
  do 2 eexists. split; [reflexivity | ].
  cbn [trace texture_objects active_texture_unit texture_binding
       texture_image].
  rewrite !Z.eqb_refl. repeat split; try lia.
  intros u D.
  destruct (Z.eqb_spec (active_texture_unit (trace w)) u);
    [congruence | reflexivity].
Qed.

(** After texture 12 has been bound to unit 3, creating a texture puts
    the new texture on unit 3. *)
Lemma create_texture_takes_active_unit_witness :
  exists handle w',
    gpu_context_create_texture Linux (Some linux_context) 4 4 None
      (mkWorld [glBindTexture GL_TEXTURE_2D 12; glActiveTexture 33987] 13)
    = Ok handle w'
    /\ handle <> 0
    /\ texture_objects (trace w') = [handle]
    /\ active_texture_unit (trace w') = 33987
    /\ texture_binding 33987 (trace w') = handle
    /\ texture_image handle (trace w') = Some (4, 4, None)
    /\ forall u, u <> 33987 ->
         texture_binding u (trace w')
         = texture_binding u
             [glBindTexture GL_TEXTURE_2D 12; glActiveTexture 33987].
Proof.
  exact (create_texture_takes_active_unit Linux working_driver
           linux_context 4 4 None
           (mkWorld [glBindTexture GL_TEXTURE_2D 12; glActiveTexture 33987]
              13)
           linux_context_issued eq_refl).
Defined.

(** ** Uniform upload by type tag *)

(** X13. On a context in circulation, [gpu_upload_uniforms] with type tag
    0, 1, 2 or 3 and at least tag + 1 values looks the name up once in the
    bound program and, when it is found, uploads exactly the first tag + 1
    values; values beyond those are not used. *)
Theorem upload_uniforms_sends_leading_values (plat : Platform) (drv : Driver)
    (c : GpuContext) (name : string) (type : Z) (values : list float)
    (w : World) :
  Issued plat drv c ->
  0 <= type <= 3 ->
  type < Z.of_nat (length values) ->
  let location := drv_glGetUniformLocation drv (current_program c) name in
  exists w',
    gpu_upload_uniforms plat drv (Some c) (Some name) type (Some values) w
    = Ok tt w'
    /\ uniform_lookups (trace w')
       = (current_program c, name) :: uniform_lookups (trace w)
    /\ (location < 0 ->
        uniform_uploads (trace w') = uniform_uploads (trace w))
    /\ (0 <= location ->
        exists u,
          uniform_uploads (trace w') = u :: uniform_uploads (trace w)
          /\ upload_values u = firstn (Z.to_nat (type + 1)) values).
Proof.
  intros I T L location. subst location.
  apply Issued_opengles_active in I.
  assert (C : type = 0 \/ type = 1 \/ type = 2 \/ type = 3) by lia.
  destruct values as [ | v0 [ | v1 [ | v2 [ | v3 rest]]]];
    cbn [length] in L;
    destruct C as [-> | [-> | [-> | ->]]]; try lia;
    unfold gpu_upload_uniforms, gpu_context_set_uniform_float,
      gpu_context_set_uniform_vec2, gpu_context_set_uniform_vec3,
      gpu_context_set_uniform_vec4, array_get;
    cbn [Z.eqb Pos.eqb Z.to_nat Pos.to_nat Pos.iter_op Nat.add nth_error];
    unfold_effects; rewrite I; cbn [trace next_name];
    destruct (Z.leb_spec 0
                (drv_glGetUniformLocation drv (current_program c) name));
    eexists; (split; [reflexivity | ]);
    cbn [trace uniform_lookups uniform_uploads filter is_uniform_upload];
    (split; [reflexivity | ]);
    (split; [ intros; try lia; reflexivity | ]);
    intros; try lia; eexists; split; reflexivity.
Qed.

(** A [vec2] taken from four values. *)
Lemma upload_uniforms_sends_leading_values_witness :
  exists w',
    gpu_upload_uniforms Linux working_driver (Some linux_context)
      (Some "u_color") 1 (Some [f_one; f_four; f_seven; f_eight]) boot
    = Ok tt w'
    /\ uniform_uploads (trace w') = [glUniform2f 4 f_one f_four].
Proof.
  destruct (upload_uniforms_sends_leading_values Linux working_driver
              linux_context "u_color" 1 [f_one; f_four; f_seven; f_eight]
              boot linux_context_issued)
    as (w' & E & _ & _ & U); [ cbv; split; discriminate | reflexivity | ].
  exists w'. split; [exact E | ].
  cbv in E. inversion E. reflexivity.
Defined.

(** X14. With type tag 0, 1, 2 or 3 and no more values than the tag,
    [gpu_upload_uniforms] reads past the end of the values, on any non-null
    context and before any native call is made. *)
Theorem upload_uniforms_short_values_undefined (plat : Platform)
    (drv : Driver) (c : GpuContext) (name : string) (type : Z)
    (values : list float) (w : World) :
  0 <= type <= 3 ->
  Z.of_nat (length values) <= type ->
  gpu_upload_uniforms plat drv (Some c) (Some name) type (Some values) w
  = Undefined w.
Proof.
  intros T L.
  assert (C : type = 0 \/ type = 1 \/ type = 2 \/ type = 3) by lia.
  destruct values as [ | v0 [ | v1 [ | v2 [ | v3 rest]]]];
    cbn [length] in L;
    destruct C as [-> | [-> | [-> | ->]]]; try lia; reflexivity.
Qed.

Lemma upload_uniforms_short_values_undefined_witness :
  gpu_upload_uniforms Linux working_driver (Some linux_context)
    (Some "u_color") 3 (Some [f_one; f_one; f_one]) boot
  = Undefined boot.
Proof.
  apply (upload_uniforms_short_values_undefined Linux working_driver
           linux_context "u_color" 3 [f_one; f_one; f_one] boot);
    cbv; [split | ]; discriminate.
Defined.

(** ** The render graph as a whole *)

Lemma node_arity_bounds t : 0 <= node_arity t <= 8.
Proof.
  unfold node_arity.
  repeat match goal with
         | |- context [if ?b then _ else _] => destruct b
         end; lia.
Qed.

Lemma total_arity_nonneg nodes : 0 <= total_arity nodes.
Proof.
  induction nodes as [ | n rest IH]; cbn [total_arity]; [lia | ].
  pose proof (node_arity_bounds n). lia.
Qed.

Lemma array_get_in_bounds {A} (a : list A) (i : Z) w :
  0 <= i < Z.of_nat (length a) ->
  exists v, array_get a i w = Ok v w /\ In v a.
Proof.
  intros B. unfold array_get.
  destruct (nth_error a (Z.to_nat i)) as [v | ] eqn:N.
  - exists v. split; [reflexivity | ]. exact (nth_error_In _ _ N).
  - apply nth_error_None in N. lia.
Qed.

Lemma gpu_context_clear_returns plat ctx r g b a w :
  exists w', gpu_context_clear plat ctx r g b a w = Ok tt w'.
Proof.
  unfold gpu_context_clear. destruct ctx as [c | ]; [ | eexists; reflexivity].
  destruct (opengles_active plat c); eexists; reflexivity.
Qed.

Lemma gpu_composite_pass_returns plat ctx mode w :
  exists w', gpu_composite_pass plat ctx mode w = Ok tt w'.
Proof.
  unfold gpu_composite_pass. destruct ctx as [c | ]; [ | eexists; reflexivity].
  unfold_effects.
  repeat match goal with
         | |- context [if ?b then _ else _] => destruct b
         end; eexists; reflexivity.
Qed.

Ltac next_param params Hlen Hconv :=
  match goal with
  | |- context [array_get params ?i ?w] =>
      let v := fresh "v" in
      let E := fresh "E" in
      let Hin := fresh "Hin" in
      destruct (array_get_in_bounds params i w) as (v & E & Hin);
      [ unfold wrap32; rewrite Z.mod_small by lia; lia
      | rewrite E; clear E; cbv beta iota;
        pose proof (proj1 (Forall_forall _ _) Hconv v Hin) ]
  end.

Ltac next_cast :=
  match goal with
  | H : convertible ?f |- context [cast_int32 ?f ?w] =>
      unfold cast_int32 at 1;
      let z := fresh "z" in
      destruct (float_to_int32 f) as [z | ] eqn:?;
      [ unfold ret at 1; cbv beta iota | exfalso; apply H; assumption ]
  end.

(** A node whose parameter block lies inside the parameters returns, with
    the cursor advanced by its arity. *)
Lemma render_graph_node_in_bounds plat ctx params node_type off w :
  Forall convertible params ->
  Z.of_nat (length params) < 2 ^ 32 ->
  0 <= off ->
  off + node_arity node_type <= Z.of_nat (length params) ->
  exists w',
    render_graph_node plat ctx params node_type off w
    = Ok (off + node_arity node_type) w'.
Proof.
  intros Hconv Hlen Hoff Hfit.
  assert (W : forall k, 0 <= k <= node_arity node_type ->
                wrap32 (off + k) = off + k).
  { intros k K. unfold wrap32. apply Z.mod_small. lia. }
  unfold render_graph_node, node_arity in *. cbv zeta.
  repeat match goal with
         | |- context [if ?b then _ else _] => destruct b
         end.
  - unfold bind. do 4 next_param params Hlen Hconv.
    destruct (gpu_context_clear_returns plat ctx v v0 v1 v2 w) as [w' C].
    rewrite C. unfold ret. rewrite W by lia. eexists; reflexivity.
  - unfold ret. rewrite W by lia. eexists; reflexivity.
  - unfold bind. do 2 next_param params Hlen Hconv. next_cast.
    unfold ret, gpu_blur_pass. destruct ctx; rewrite W by lia;
      eexists; reflexivity.
  - unfold bind. do 8 next_param params Hlen Hconv.
    unfold ret, gpu_shadow_pass. destruct ctx; rewrite W by lia;
      eexists; reflexivity.
  - unfold bind. next_param params Hlen Hconv. next_cast.
    destruct (gpu_composite_pass_returns plat ctx z w) as [w' C].
    rewrite C. unfold ret. rewrite W by lia. eexists; reflexivity.
  - unfold bind. do 3 next_param params Hlen Hconv.
    unfold ret, gpu_color_adjust_pass. destruct ctx; rewrite W by lia;
      eexists; reflexivity.
  - unfold ret. rewrite Z.add_0_r. eexists; reflexivity.
Qed.

Lemma render_graph_run_in_bounds plat ctx params nodes :
  Forall convertible params ->
  Z.of_nat (length params) < 2 ^ 32 ->
  forall off w,
    0 <= off ->
    off + total_arity nodes <= Z.of_nat (length params) ->
    exists w',
      render_graph_run plat ctx params nodes off w
      = Ok (off + total_arity nodes) w'.
Proof.
  intros Hconv Hlen.
  induction nodes as [ | n rest IH]; intros off w Hoff Hfit.
  - cbn. rewrite Z.add_0_r. eexists; reflexivity.
  - cbn [render_graph_run total_arity] in *.
    pose proof (node_arity_bounds n). pose proof (total_arity_nonneg rest).
    destruct (render_graph_node_in_bounds plat ctx params n off w
                Hconv Hlen Hoff) as [w1 N]; [lia | ].
    unfold bind. rewrite N.
    destruct (IH (off + node_arity n) w1) as [w2 R]; [lia | lia | ].
    rewrite R. rewrite Z.add_assoc. eexists; reflexivity.
Qed.

(** X15. A graph whose nodes' total arity does not exceed the number of
    parameters given, all of them convertible to [int32_t], is executed to
    the end: no read falls outside the parameters and the call returns. *)
Theorem render_graph_with_enough_parameters_returns (plat : Platform)
    (ctx : option GpuContext) (nodes : list Z) (params : list float)
    (w : World) :
  total_arity nodes <= Z.of_nat (length params) ->
  Z.of_nat (length params) < 2 ^ 32 ->
  Forall convertible params ->
  exists w',
    gpu_execute_render_graph plat ctx (Some nodes)
      (Z.of_nat (length nodes)) (Some params) w = Ok tt w'.
Proof.
  intros Hfit Hlen Hconv.
  destruct ctx as [c | ]; [ | eexists; reflexivity].
  rewrite gpu_execute_render_graph_run.
  destruct (render_graph_run_in_bounds plat (Some c) params nodes Hconv Hlen
              0 w) as [w' R]; [lia | lia | ].
  unfold bind. rewrite R. eexists; reflexivity.
Qed.

Lemma render_graph_with_enough_parameters_returns_witness :
  exists w',
    gpu_execute_render_graph Linux (Some linux_context)
      (Some [3; 5; 1; 2]) 4
      (Some [f_one; f_one; f_zero; f_zero; f_zero; f_one; f_four; f_one;
             f_one; f_one; f_one;
             f_zero; f_zero; f_eight; f_eight; f_one; f_zero; f_zero; f_one;
             f_four; f_eight; f_seven]) boot = Ok tt w'.
Proof.
  apply (render_graph_with_enough_parameters_returns Linux
           (Some linux_context) [3; 5; 1; 2]).
  - cbv. discriminate.
  - reflexivity.
  - repeat constructor; discriminate.
Defined.

Lemma wrap32_range z : 0 <= wrap32 z < 2 ^ 32.
Proof. unfold wrap32. apply Z.mod_pos_bound. reflexivity. Qed.

Lemma render_graph_node_cursor_range plat ctx params node_type off w off' w' :
  render_graph_node plat ctx params node_type off w = Ok off' w' ->
  0 <= off < 2 ^ 32 -> 0 <= off' < 2 ^ 32.
Proof.
  unfold render_graph_node. cbv zeta.
  repeat match goal with
         | |- context [if ?b then _ else _] => destruct b
         end;
    intros H R; run_binds H; unfold ret in H; inversion H; subst;
    first [apply wrap32_range | exact R].
Qed.

Lemma render_graph_run_cursor_range plat ctx params nodes :
  forall off w off' w',
    render_graph_run plat ctx params nodes off w = Ok off' w' ->
    0 <= off < 2 ^ 32 -> 0 <= off' < 2 ^ 32.
Proof.
  induction nodes as [ | n rest IH]; intros off w off' w' H R.
  - cbn in H. inversion H; subst. exact R.
  - cbn [render_graph_run] in H. unfold bind in H.
    destruct (render_graph_node plat ctx params n off w) as [o1 w1 | w1] eqn:N;
      [ | discriminate H].
    apply (IH _ _ _ _ H).
    exact (render_graph_node_cursor_range _ _ _ _ _ _ _ _ N R).
Qed.

(** X16. The parameter sequence is laid out by position: once the first
    nodes of a graph have run, the nodes after them start reading at the
    total arity of those first nodes (taken modulo 2^32, the width of the
    cursor), whatever their types, and run from the world those left. *)
Theorem render_graph_cursor_is_total_arity (plat : Platform)
    (ctx : option GpuContext) (params : list float) (pre post : list Z)
    (w : World) (off : Z) (w1 : World) :
  render_graph_run plat ctx params pre 0 w = Ok off w1 ->
  off = wrap32 (total_arity pre)
  /\ render_graph_run plat ctx params (pre ++ post) 0 w
     = render_graph_run plat ctx params post (wrap32 (total_arity pre)) w1.
Proof.
  intros R.
  assert (E : off = wrap32 (total_arity pre)).
  { pose proof (render_graph_run_cursor _ _ _ _ _ _ _ _ R) as C.
    pose proof (render_graph_run_cursor_range _ _ _ _ _ _ _ _ R) as B.
    cbn [Z.add] in C. rewrite <- C. unfold wrap32.
    symmetry. apply Z.mod_small. apply B. split; [lia | reflexivity]. }
  split; [exact E | ].
  rewrite render_graph_run_app. unfold bind. rewrite R, E. reflexivity.
Qed.

(** After [Clear, DrawRect], a CompositePass reads its mode at index 12:
    here mode 1. *)
Lemma render_graph_cursor_is_total_arity_witness :
  render_graph_run Linux (Some linux_context)
    [f_one; f_one; f_one; f_one;
     f_zero; f_zero; f_zero; f_zero; f_zero; f_zero; f_zero; f_zero;
     f_one] ([0; 1] ++ [4]) 0 boot
  = render_graph_run Linux (Some linux_context)
      [f_one; f_one; f_one; f_one;
       f_zero; f_zero; f_zero; f_zero; f_zero; f_zero; f_zero; f_zero;
       f_one] [4] (wrap32 (total_arity [0; 1]))
      (mkWorld [glClear 16640; glClearColor f_one f_one f_one f_one] 1).
Proof.
  apply (render_graph_cursor_is_total_arity Linux (Some linux_context)
           _ [0; 1] [4] boot 12).
  reflexivity.
Defined.

(** *** What a render graph can do *)

Lemma only_clears_and_blends_ret {A} (a : A) : only_clears_and_blends (ret a).
Proof. intros w. exists []. repeat split. Qed.

Lemma only_clears_and_blends_undefined {A} :
  only_clears_and_blends (@undefined A).
Proof. intros w. exists []. repeat split. Qed.

Lemma only_clears_and_blends_call c :
  is_clear_or_blend c = true -> only_clears_and_blends (call c).
Proof.
  intros C w. exists [c]. cbn. rewrite C. repeat split.
Qed.

Lemma only_clears_and_blends_bind {A B} (m : M A) (k : A -> M B) :
  only_clears_and_blends m ->
  (forall a, only_clears_and_blends (k a)) ->
  only_clears_and_blends (bind m k).
Proof.
  intros Hm Hk w. destruct (Hm w) as (a1 & T1 & F1 & N1).
  unfold bind. destruct (m w) as [a w1 | w1]; cbn [world_of] in *.
  - destruct (Hk a w1) as (a2 & T2 & F2 & N2).
    exists (a2 ++ a1). rewrite T2, T1, N2, N1, app_assoc, forallb_app, F1, F2.
    repeat split.
  - exists a1. repeat split; assumption.
Qed.

Lemma only_clears_and_blends_array_get {A} (a : list A) i :
  only_clears_and_blends (array_get a i).
Proof.
  unfold array_get. destruct (nth_error a (Z.to_nat i));
    [apply only_clears_and_blends_ret | apply only_clears_and_blends_undefined].
Qed.

Lemma only_clears_and_blends_cast f : only_clears_and_blends (cast_int32 f).
Proof.
  unfold cast_int32. destruct (float_to_int32 f);
    [apply only_clears_and_blends_ret | apply only_clears_and_blends_undefined].
Qed.

Ltac clears_and_blends :=
  repeat first
    [ apply only_clears_and_blends_ret
    | apply only_clears_and_blends_undefined
    | apply only_clears_and_blends_array_get
    | apply only_clears_and_blends_cast
    | apply only_clears_and_blends_call; reflexivity
    | apply only_clears_and_blends_bind; [ | intros ? ]
    | match goal with
      | |- context [if ?b then _ else _] => destruct b
      | |- context [match ?o with Some _ => _ | None => _ end] => destruct o
      end ].

Lemma only_clears_and_blends_node plat ctx params node_type off :
  only_clears_and_blends (render_graph_node plat ctx params node_type off).
Proof.
  unfold render_graph_node, gpu_context_clear, gpu_blur_pass,
    gpu_shadow_pass, gpu_composite_pass, gpu_color_adjust_pass.
  cbv zeta. clears_and_blends.
Qed.

Lemma only_clears_and_blends_loop plat ctx nodes params remaining :
  forall i off,
    only_clears_and_blends
      (render_graph_loop plat ctx nodes params remaining i off).
Proof.
  induction remaining as [ | k IH]; intros i off; cbn [render_graph_loop].
  - apply only_clears_and_blends_ret.
  - apply only_clears_and_blends_bind;
      [apply only_clears_and_blends_array_get | intros t].
    apply only_clears_and_blends_bind;
      [apply only_clears_and_blends_node | intros off'].
    apply IH.
Qed.

(** X17. Whatever graph it is given and however the run ends,
    [gpu_execute_render_graph] makes no native call other than
    [glClearColor], [glClear], [glEnable(GL_BLEND)] and [glBlendFunc]: it
    draws nothing, uploads nothing, and creates no GL object. *)
Theorem render_graph_only_clears_and_blends (plat : Platform)
    (ctx : option GpuContext) (nodes : option (list Z)) (node_count : Z)
    (params : option (list float)) (w : World) :
  exists added,
    trace (world_of (gpu_execute_render_graph plat ctx nodes node_count
                       params w))
    = added ++ trace w
    /\ forallb is_clear_or_blend added = true
    /\ next_name (world_of (gpu_execute_render_graph plat ctx nodes
                              node_count params w))
       = next_name w.
Proof.
  revert w. change (only_clears_and_blends
                      (gpu_execute_render_graph plat ctx nodes node_count
                         params)).
  unfold gpu_execute_render_graph.
  destruct ctx; [ | apply only_clears_and_blends_ret].
  destruct nodes; [ | apply only_clears_and_blends_ret].
  destruct params; [ | apply only_clears_and_blends_ret].
  apply only_clears_and_blends_loop.
Qed.

(** *** The node count *)

Lemma render_graph_loop_reads plat ctx nodes nodes' params remaining :
  forall i off w,
    0 <= i ->
    (forall j, (j < remaining)%nat ->
       nth_error nodes (Z.to_nat i + j) = nth_error nodes' (Z.to_nat i + j)) ->
    render_graph_loop plat ctx nodes params remaining i off w
    = render_graph_loop plat ctx nodes' params remaining i off w.
Proof.
  induction remaining as [ | k IH]; intros i off w Hi Hsame;
    cbn [render_graph_loop]; [reflexivity | ].
  unfold bind, array_get.
  pose proof (Hsame 0%nat ltac:(lia)) as H0. rewrite Nat.add_0_r in H0.
  rewrite H0. destruct (nth_error nodes' (Z.to_nat i)); [ | reflexivity].
  unfold ret at 1 2. cbv beta iota.
  destruct (render_graph_node plat ctx params z off w) as [off' w' | w'];
    [ | reflexivity].
  apply IH; [lia | ]. intros j Hj.
  replace (Z.to_nat (i + 1) + j)%nat with (Z.to_nat i + S j)%nat by lia.
  apply Hsame. lia.
Qed.

(** X18. [gpu_execute_render_graph] reads the first [node_count] nodes
    and no others: what follows them in the array makes no difference. *)
Theorem render_graph_ignores_nodes_past_count (plat : Platform)
    (ctx : option GpuContext) (nodes extra : list Z)
    (params : option (list float)) (w : World) :
  gpu_execute_render_graph plat ctx (Some (nodes ++ extra))
    (Z.of_nat (length nodes)) params w
  = gpu_execute_render_graph plat ctx (Some nodes)
      (Z.of_nat (length nodes)) params w.
Proof.
  unfold gpu_execute_render_graph.
  destruct ctx; [ | reflexivity]. destruct params; [ | reflexivity].
  rewrite Nat2Z.id.
  apply render_graph_loop_reads; [lia | ].
  intros j Hj. cbn [Z.to_nat Nat.add]. apply nth_error_app1. exact Hj.
Qed.

Lemma render_graph_loop_overrun plat ctx params rest extra :
  forall pre off w,
    render_graph_loop plat ctx (pre ++ rest) params
      (length rest + S extra) (Z.of_nat (length pre)) off w
    = (render_graph_run plat ctx params rest off ;; undefined) w.
Proof.
  induction rest as [ | n rest IH]; intros pre off w.
  - cbn [length Nat.add render_graph_loop render_graph_run].
    unfold bind, array_get, ret, undefined.
    rewrite app_nil_r, Nat2Z.id.
    rewrite (proj2 (nth_error_None pre (length pre)) (Nat.le_refl _)).
    reflexivity.
  - cbn [length Nat.add render_graph_loop render_graph_run].
    unfold bind at 1. rewrite array_get_at. unfold bind.
    destruct (render_graph_node plat ctx params n off w) as [off' w' | w'];
      [ | reflexivity].
    specialize (IH (pre ++ [n]) off' w').
    rewrite <- app_assoc in IH. cbn [app] in IH.
    rewrite length_app in IH. cbn [length] in IH.
    replace (Z.of_nat (length pre + 1)) with (Z.of_nat (length pre) + 1)
      in IH by lia.
    rewrite IH. reflexivity.
Qed.

(** X19. A [node_count] larger than the node array is undefined
    behaviour, but only after every node of the array has been executed:
    the run ends in the world that executing the whole array leads to. *)
Theorem render_graph_count_past_array_is_undefined (plat : Platform)
    (c : GpuContext) (nodes : list Z) (params : list float)
    (node_count : Z) (w : World) :
  Z.of_nat (length nodes) < node_count ->
  gpu_execute_render_graph plat (Some c) (Some nodes) node_count
    (Some params) w
  = Undefined
      (world_of (gpu_execute_render_graph plat (Some c) (Some nodes)
                   (Z.of_nat (length nodes)) (Some params) w)).
Proof.
  intros L. rewrite gpu_execute_render_graph_run.
  unfold gpu_execute_render_graph.
  replace (Z.to_nat node_count)
    with (length nodes + S (Z.to_nat node_count - length nodes - 1))%nat
    by lia.
  rewrite (render_graph_loop_overrun plat (Some c) params nodes _ [] 0 w).
  unfold bind.
  destruct (render_graph_run plat (Some c) params nodes 0 w); reflexivity.
Qed.

Lemma render_graph_count_past_array_is_undefined_witness :
  gpu_execute_render_graph Linux (Some linux_context) (Some [0]) 2
    (Some [f_zero; f_zero; f_zero; f_one]) boot
  = Undefined (mkWorld [glClear 16640;
                        glClearColor f_zero f_zero f_zero f_one] 1).
Proof.
  exact (render_graph_count_past_array_is_undefined Linux linux_context
           [0] [f_zero; f_zero; f_zero; f_one] 2 boot eq_refl).
Defined.

(** ** Presenting, and blending from a graph *)

(** X21. [gpu_context_present] on a context in circulation swaps the
    buffers of the surface obtained at creation, on the display obtained at
    creation, and does nothing else. *)
Theorem present_swaps_creation_surface (plat : Platform) (drv : Driver)
    (c : GpuContext) (w : World) :
  Issued plat drv c ->
  gpu_context_present plat (Some c) w
  = Ok tt
      (mkWorld
         (eglSwapBuffers (drv_eglGetDisplay drv)
            (drv_eglCreatePbufferSurface drv) :: trace w)
         (next_name w)).
Proof.
  intros I. destruct (Issued_identity _ _ _ I) as (_ & _ & D & S & _).
  unfold gpu_context_present. rewrite (Issued_opengles_active _ _ _ I).
  rewrite D, S. reflexivity.
Qed.

Lemma present_swaps_creation_surface_witness :
  gpu_context_present Linux (Some linux_context) boot
  = Ok tt (mkWorld [eglSwapBuffers 1 2] 1).
Proof.
  exact (present_swaps_creation_surface Linux working_driver linux_context
           boot linux_context_issued).
Defined.

(** X22. A CompositePass node takes its blend mode from a float by
    truncation toward zero.  When the float converts, the node returns with
    the cursor advanced by 1 and the blend function of the truncated mode in
    force (the previous one when that mode is not 0 to 3); when it does not
    convert to [int32_t], the behaviour is undefined before any call. *)
Theorem composite_node_truncates_mode (plat : Platform) (drv : Driver)
    (c : GpuContext) (pre post : list float) (m : float) (w : World) :
  Issued plat drv c ->
  Z.of_nat (length pre) + 1 < 2 ^ 32 ->
  match float_to_int32 m with
  | Some mode =>
      exists w',
        render_graph_node plat (Some c) (pre ++ [m] ++ post) 4
          (Z.of_nat (length pre)) w
        = Ok (Z.of_nat (length pre) + 1) w'
        /\ match spec_blend_function mode with
           | Some f => blend_func (trace w') = Some f
           | None => blend_func (trace w') = blend_func (trace w)
           end
  | None =>
      render_graph_node plat (Some c) (pre ++ [m] ++ post) 4
        (Z.of_nat (length pre)) w = Undefined w
  end.
Proof.
  intros I B. apply Issued_has_opengl in I.
  assert (G : array_get (pre ++ [m] ++ post)
                (wrap32 (Z.of_nat (length pre) + 0)) w = Ok m w).
  { apply array_get_block; [lia | reflexivity | lia]. }
  unfold render_graph_node. cbv zeta. cbn [Z.eqb Pos.eqb].
  destruct (float_to_int32 m) as [mode | ] eqn:F.
  2: { unfold bind at 1. rewrite G. unfold bind at 1. unfold cast_int32.
       rewrite F. reflexivity. }
  unfold bind at 1. rewrite G. unfold bind at 1. unfold cast_int32.
  rewrite F. unfold ret at 1. unfold gpu_composite_pass. rewrite I.
  unfold_effects. cbn [trace next_name].
  assert (W : wrap32 (Z.of_nat (length pre) + 1) = Z.of_nat (length pre) + 1).
  { unfold wrap32. apply Z.mod_small. lia. }
  rewrite W.
  destruct (Z.eqb_spec mode 0) as [-> | N0];
    [eexists; split; reflexivity | ].
  destruct (Z.eqb_spec mode 1) as [-> | N1];
    [eexists; split; reflexivity | ].
  destruct (Z.eqb_spec mode 2) as [-> | N2];
    [eexists; split; reflexivity | ].
  destruct (Z.eqb_spec mode 3) as [-> | N3];
    [eexists; split; reflexivity | ].
  eexists; split; [reflexivity | ].
  destruct mode as [ | [ [ | | ] | [ | | ] | ] | ]; try reflexivity; lia.
Qed.

(** The float 1.5 selects Multiply. *)
Lemma composite_node_truncates_mode_witness :
  exists w',
    render_graph_node Linux (Some linux_context)
      ([] ++ [S754_finite false 3 (-1)] ++ []) 4 0 boot = Ok 1 w'
    /\ blend_func (trace w') = Some (GL_DST_COLOR, GL_ZERO).
Proof.
  exact (composite_node_truncates_mode Linux working_driver linux_context
           [] [] (S754_finite false 3 (-1)) boot
           linux_context_issued eq_refl).
Defined.

(** ** The interpreter against the calls a graph is to make *)

Lemma world_eta w : mkWorld (trace w) (next_name w) = w.
Proof. destruct w; reflexivity. Qed.

Lemma param_index (params : list float) off k :
  0 <= off -> 0 <= k -> off + k < 2 ^ 32 ->
  nth_error params (Z.to_nat (wrap32 (off + k)))
  = nth_error (skipn (Z.to_nat off) params) (Z.to_nat k).
Proof.
  intros Hoff Hk B. unfold wrap32. rewrite Z.mod_small by lia.
  rewrite nth_error_skipn. f_equal. lia.
Qed.

Lemma blend_calls_cases mode :
  blend_calls mode
  = if mode =? 0 then [glBlendFunc GL_SRC_ALPHA GL_ONE_MINUS_SRC_ALPHA;
                       glEnable GL_BLEND]
    else if mode =? 1 then [glBlendFunc GL_DST_COLOR GL_ZERO;
                            glEnable GL_BLEND]
    else if mode =? 2 then [glBlendFunc GL_ONE GL_ONE_MINUS_SRC_COLOR;
                            glEnable GL_BLEND]
    else if mode =? 3 then [glBlendFunc GL_SRC_ALPHA GL_ONE;
                            glEnable GL_BLEND]
    else [glEnable GL_BLEND].
Proof.
  destruct mode as [ | [ [ | | ] | [ | | ] | ] | ]; reflexivity.
Qed.

(** One node on a valid context: the calls [node_calls] gives for what is
    at the cursor, and the cursor advanced by the arity; undefined
    behaviour, with nothing called, where [node_calls] gives nothing. *)
Lemma render_graph_node_calls plat drv c params node_type off w :
  Issued plat drv c ->
  0 <= off ->
  off + node_arity node_type < 2 ^ 32 ->
  render_graph_node plat (Some c) params node_type off w
  = match node_calls node_type (skipn (Z.to_nat off) params) with
    | Some calls =>
        Ok (off + node_arity node_type)
           (mkWorld (calls ++ trace w) (next_name w))
    | None => Undefined w
    end.
Proof.
  intros I Hoff B.
  pose proof (Issued_opengles_active _ _ _ I) as A.
  pose proof (Issued_has_opengl _ _ _ I) as G.
  assert (P : forall k, 0 <= k < node_arity node_type ->
             nth_error params (Z.to_nat (wrap32 (off + k)))
             = nth_error (skipn (Z.to_nat off) params) (Z.to_nat k)).
  { intros k K. apply param_index; lia. }
  assert (W : wrap32 (off + node_arity node_type)
              = off + node_arity node_type).
  { pose proof (node_arity_bounds node_type).
    unfold wrap32. apply Z.mod_small. lia. }
  unfold render_graph_node, node_calls, node_arity in *. cbv zeta.
  unfold array_get, cast_int32, gpu_context_clear, gpu_composite_pass.
  rewrite A, G.
  repeat match goal with
         | |- context [if ?b then _ else _] => destruct b
         end;
    rewrite ?W; rewrite ?P by lia;
    repeat match goal with
           | |- context [Z.to_nat (Z.pos ?p)] =>
               let n := eval compute in (Z.to_nat (Z.pos p)) in
               change (Z.to_nat (Z.pos p)) with n
           end;
    change (Z.to_nat 0) with 0%nat.
  - destruct (skipn (Z.to_nat off) params) as [ | r [ | g [ | b [ | a l]]]];
      reflexivity.
  - unfold ret. cbn [app]. rewrite world_eta. reflexivity.
  - destruct (skipn (Z.to_nat off) params) as [ | r [ | s l]];
      try reflexivity.
    cbn [nth_error]. unfold_effects.
    destruct (float_to_int32 s); [ | reflexivity].
    cbn [app]. rewrite world_eta. reflexivity.
  - destruct (skipn (Z.to_nat off) params)
      as [ | p0 [ | p1 [ | p2 [ | p3 [ | p4 [ | p5 [ | p6 [ | p7 l]]]]]]]];
      try reflexivity.
    unfold_effects. cbn [nth_error app]. rewrite world_eta. reflexivity.
  - destruct (skipn (Z.to_nat off) params) as [ | m l]; try reflexivity.
    cbn [nth_error]. unfold_effects.
    destruct (float_to_int32 m) as [mode | ]; [ | reflexivity].
    rewrite blend_calls_cases. cbn [trace next_name].
    repeat match goal with
           | |- context [if ?b then _ else _] => destruct b
           end; reflexivity.
  - destruct (skipn (Z.to_nat off) params) as [ | p0 [ | p1 [ | p2 l]]];
      try reflexivity.
    unfold_effects. cbn [nth_error app]. rewrite world_eta. reflexivity.
  - unfold ret. cbn [app]. rewrite Z.add_0_r, world_eta. reflexivity.
Qed.

Lemma render_graph_run_calls plat drv c params nodes :
  Issued plat drv c ->
  forall off w,
    0 <= off ->
    off + total_arity nodes < 2 ^ 32 ->
    render_graph_run plat (Some c) params nodes off w
    = (if snd (graph_calls nodes (skipn (Z.to_nat off) params))
       then Ok (off + total_arity nodes)
       else Undefined)
        (mkWorld
           (fst (graph_calls nodes (skipn (Z.to_nat off) params)) ++ trace w)
           (next_name w)).
Proof.
  intros I. induction nodes as [ | n rest IH]; intros off w Hoff B.
  - cbn. rewrite Z.add_0_r, world_eta. reflexivity.
  - cbn [render_graph_run total_arity graph_calls] in *.
    pose proof (node_arity_bounds n) as NA.
    pose proof (total_arity_nonneg rest) as TA.
    unfold bind.
    rewrite (render_graph_node_calls plat drv c params n off w I Hoff)
      by lia.
    destruct (node_calls n (skipn (Z.to_nat off) params)) as [calls | ].
    + rewrite IH by lia. cbn [trace next_name fst snd].
      rewrite skipn_skipn.
      replace (Z.to_nat (node_arity n) + Z.to_nat off)%nat
        with (Z.to_nat (off + node_arity n)) by lia.
      rewrite <- app_assoc, Z.add_assoc. reflexivity.
    + cbn [fst snd app]. rewrite world_eta. reflexivity.
Qed.

Lemma node_calls_front node_type (front extra : list float) :
  node_arity node_type <= Z.of_nat (length front) ->
  node_calls node_type (front ++ extra) = node_calls node_type front.
Proof.
  unfold node_calls, node_arity.
  repeat match goal with
         | |- context [if ?b then _ else _] => destruct b
         end; intros L; try reflexivity;
    repeat (destruct front as [ | ? front];
            [cbn [length] in L; lia | cbn [length] in L]);
    reflexivity.
Qed.

Lemma node_calls_convertible node_type (front : list float) :
  node_arity node_type <= Z.of_nat (length front) ->
  Forall convertible (firstn (Z.to_nat (node_arity node_type)) front) ->
  node_calls node_type front <> None.
Proof.
  unfold node_calls, node_arity.
  repeat match goal with
         | |- context [if ?b then _ else _] => destruct b
         end; intros L F; try discriminate.
  - do 4 (destruct front as [ | ? front];
          [cbn [length] in L; lia | cbn [length] in L]).
    discriminate.
  - do 2 (destruct front as [ | ? front];
          [cbn [length] in L; lia | cbn [length] in L]).
    cbn in F. inversion F as [ | ? ? _ F1]; subst.
    inversion F1 as [ | ? ? C _]; subst.
    destruct (float_to_int32 f0) eqn:E; [discriminate | exfalso; apply C; exact E].
  - do 8 (destruct front as [ | ? front];
          [cbn [length] in L; lia | cbn [length] in L]).
    discriminate.
  - destruct front as [ | m front]; [cbn [length] in L; lia | ].
    cbn in F. inversion F as [ | ? ? C _]; subst.
    destruct (float_to_int32 m) eqn:E; [discriminate | exfalso; apply C; exact E].
  - do 3 (destruct front as [ | ? front];
          [cbn [length] in L; lia | cbn [length] in L]).
    discriminate.
Qed.

(** With parameters for every node, [graph_calls] does not look past
    the total arity. *)
Lemma graph_calls_front nodes :
  forall (front extra : list float),
    total_arity nodes <= Z.of_nat (length front) ->
    graph_calls nodes (front ++ extra) = graph_calls nodes front.
Proof.
  induction nodes as [ | n rest IH]; intros front extra L; [reflexivity | ].
  cbn [graph_calls total_arity] in *.
  pose proof (node_arity_bounds n) as NA.
  pose proof (total_arity_nonneg rest) as TA.
  rewrite node_calls_front by lia.
  destruct (node_calls n front); [ | reflexivity].
  rewrite skipn_app.
  replace (Z.to_nat (node_arity n) - length front)%nat with 0%nat by lia.
  cbn [skipn]. rewrite IH; [reflexivity | ].
  rewrite length_skipn. lia.
Qed.

Lemma firstn_add {A} (n m : nat) : forall l : list A,
  firstn (n + m) l = firstn n l ++ firstn m (skipn n l).
Proof.
  induction n as [ | n IH]; intros [ | x l]; cbn [Nat.add firstn skipn app];
    try reflexivity.
  - rewrite firstn_nil. reflexivity.
  - rewrite IH. reflexivity.
Qed.

Lemma graph_calls_complete nodes :
  forall params : list float,
    total_arity nodes <= Z.of_nat (length params) ->
    Forall convertible (firstn (Z.to_nat (total_arity nodes)) params) ->
    snd (graph_calls nodes params) = true.
Proof.
  induction nodes as [ | n rest IH]; intros params L F; [reflexivity | ].
  cbn [graph_calls total_arity] in *.
  pose proof (node_arity_bounds n) as NA.
  pose proof (total_arity_nonneg rest) as TA.
  replace (Z.to_nat (node_arity n + total_arity rest))
    with (Z.to_nat (node_arity n) + Z.to_nat (total_arity rest))%nat
    in F by lia.
  rewrite firstn_add in F. apply Forall_app in F. destruct F as [F1 F2].
  pose proof (node_calls_convertible n params ltac:(lia) F1) as N.
  destruct (node_calls n params) as [calls | ]; [ | contradiction].
  cbn [snd]. apply IH; [ | exact F2].
  rewrite length_skipn. lia.
Qed.

(** C1, as the code has it.  [gpu_execute_render_graph] is not told how
    many parameters it is given and compares nothing with the total arity:
    no graph is rejected.  On a context in circulation it runs the nodes in
    order, each on the block of parameters at the cursor (the total arity
    being below 2^32, so that the cursor does not wrap).  The native calls
    it makes are those of [graph_calls]: the clear of each Clear node and
    the blending of each CompositePass node, up to the first node whose
    block is not all there or whose parameter does not convert; it returns
    normally when there is no such node and is undefined otherwise, the
    calls of the earlier nodes having been made.  In particular, given at
    least as many parameters as the total arity, those within the total
    arity convertible, the graph is executed in full, exactly as it is with
    the surplus parameters removed. *)
Theorem render_graph_executes_without_arity_check (plat : Platform)
    (drv : Driver) (c : GpuContext) (nodes : list Z) (params : list float)
    (w : World) :
  Issued plat drv c ->
  total_arity nodes < 2 ^ 32 ->
  gpu_execute_render_graph plat (Some c) (Some nodes)
    (Z.of_nat (length nodes)) (Some params) w
  = (if snd (graph_calls nodes params) then Ok tt else Undefined)
      (mkWorld (fst (graph_calls nodes params) ++ trace w) (next_name w))
  /\ (total_arity nodes <= Z.of_nat (length params) ->
      Forall convertible (firstn (Z.to_nat (total_arity nodes)) params) ->
      gpu_execute_render_graph plat (Some c) (Some nodes)
        (Z.of_nat (length nodes)) (Some params) w
      = Ok tt
          (mkWorld (fst (graph_calls nodes params) ++ trace w) (next_name w))
      /\ gpu_execute_render_graph plat (Some c) (Some nodes)
           (Z.of_nat (length nodes))
           (Some (firstn (Z.to_nat (total_arity nodes)) params)) w
         = gpu_execute_render_graph plat (Some c) (Some nodes)
             (Z.of_nat (length nodes)) (Some params) w).
Proof.
  intros I B.
  assert (E : forall ps,
             gpu_execute_render_graph plat (Some c) (Some nodes)
               (Z.of_nat (length nodes)) (Some ps) w
             = (if snd (graph_calls nodes ps) then Ok tt else Undefined)
                 (mkWorld (fst (graph_calls nodes ps) ++ trace w)
                    (next_name w))).
  { intros ps. rewrite gpu_execute_render_graph_run. unfold bind.
    rewrite (render_graph_run_calls plat drv c ps nodes I 0 w) by lia.
    cbn [Z.to_nat skipn].
    destruct (snd (graph_calls nodes ps)); reflexivity. }
  split; [apply E | ].
  intros L F.
  pose proof (total_arity_nonneg nodes) as TA.
  rewrite !E.
  assert (S : graph_calls nodes (firstn (Z.to_nat (total_arity nodes)) params)
              = graph_calls nodes params).
  { rewrite <- (firstn_skipn (Z.to_nat (total_arity nodes)) params) at 2.
    symmetry. apply graph_calls_front.
    rewrite length_firstn. lia. }
  rewrite S. rewrite (graph_calls_complete nodes params L F).
  split; reflexivity.
Qed.

(** [Clear] on five parameters clears with the first four; [Clear,
    CompositePass] on four parameters clears and is then undefined. *)
Lemma render_graph_executes_without_arity_check_witness :
  gpu_execute_render_graph Linux (Some linux_context) (Some [0]) 1
    (Some [f_zero; f_zero; f_zero; f_one; f_seven]) boot
  = Ok tt (mkWorld [glClear 16640; glClearColor f_zero f_zero f_zero f_one] 1)
  /\ gpu_execute_render_graph Linux (Some linux_context) (Some [0; 4]) 2
       (Some [f_one; f_one; f_one; f_one]) boot
     = Undefined
         (mkWorld [glClear 16640; glClearColor f_one f_one f_one f_one] 1).
Proof.
  split.
  - exact (proj1 (render_graph_executes_without_arity_check Linux
                    working_driver linux_context [0]
                    [f_zero; f_zero; f_zero; f_one; f_seven] boot
                    linux_context_issued eq_refl)).
  - exact (proj1 (render_graph_executes_without_arity_check Linux
                    working_driver linux_context [0; 4]
                    [f_one; f_one; f_one; f_one] boot
                    linux_context_issued eq_refl)).
Defined.

(** X20. On a context in circulation, a Clear node that finds its block
    [r, g, b, a] at the cursor calls [glClearColor(r, g, b, a)] and then
    [glClear] on the colour and depth buffers, nothing else, and leaves the
    cursor 4 further; a Clear node that finds fewer than four parameters at
    the cursor calls nothing: reading them is undefined behaviour. *)
Theorem clear_node_clears_with_its_block (plat : Platform) (drv : Driver)
    (c : GpuContext) (pre : list float) (w : World) :
  Issued plat drv c ->
  Z.of_nat (length pre) + 4 < 2 ^ 32 ->
  (forall r g b a post,
      render_graph_node plat (Some c) (pre ++ [r; g; b; a] ++ post) 0
        (Z.of_nat (length pre)) w
      = Ok (Z.of_nat (length pre) + 4)
          (mkWorld
             (glClear (Z.lor GL_COLOR_BUFFER_BIT GL_DEPTH_BUFFER_BIT)
              :: glClearColor r g b a :: trace w)
             (next_name w)))
  /\ (forall short,
      (length short < 4)%nat ->
      render_graph_node plat (Some c) (pre ++ short) 0
        (Z.of_nat (length pre)) w
      = Undefined w).
Proof.
  intros I B.
  assert (K : forall l : list float,
             skipn (Z.to_nat (Z.of_nat (length pre))) (pre ++ l) = l).
  { intros l. rewrite Nat2Z.id, skipn_app, skipn_all, Nat.sub_diag.
    reflexivity. }
  split.
  - intros r g b a post.
    rewrite (render_graph_node_calls plat drv c _ 0 _ w I) by (cbn; lia).
    rewrite K. reflexivity.
  - intros short L.
    rewrite (render_graph_node_calls plat drv c _ 0 _ w I) by (cbn; lia).
    rewrite K.
    destruct short as [ | r [ | g [ | b [ | a l]]]]; try reflexivity.
    cbn [length] in L. lia.
Qed.

Lemma clear_node_clears_with_its_block_witness :
  render_graph_node Linux (Some linux_context)
    ([f_seven] ++ [f_zero; f_one; f_four; f_eight] ++ []) 0 1 boot
  = Ok 5 (mkWorld [glClear 16640; glClearColor f_zero f_one f_four f_eight] 1)
  /\ render_graph_node Linux (Some linux_context)
       ([f_seven] ++ [f_zero; f_one; f_four]) 0 1 boot
     = Undefined boot.
Proof.
  destruct (clear_node_clears_with_its_block Linux working_driver
              linux_context [f_seven] boot linux_context_issued eq_refl)
    as [C S].
  split.
  - exact (C f_zero f_one f_four f_eight []).
  - apply (S [f_zero; f_one; f_four]). simpl. lia.
Defined.
